(** * Eight Sleep MCP server: the authenticated client and its facade

    A shallow embedding of [src/config.ts], [src/eight_sleep_client.ts] and
    the [EightSleepFunctions] wrapper of [functions.ts].

    The client is stateful ([this.token], [this.userId]) and talks to two
    remote parties (the token endpoint and the vendor's resource API).  Every
    method is modelled as a computation in a small state-and-exception monad
    over the client fields, the remote world and a log of what happened; the
    two remote parties are arbitrary transition functions on the world.

    The platform's [Date] and [String.prototype.toLowerCase] are parameters
    of the model.  JavaScript numbers are modelled as rationals ([Q]), which
    covers every finite number: the code only compares them with constants
    and tests them for truthiness.  Vendor payloads are modelled at the types
    the code reads them at; a property that may be missing is an
    [option]. *)

From Stdlib Require Import ZArith QArith Lqa String Ascii.
From stdpp Require Import base option list strings gmap pretty.

Open Scope string_scope.
Open Scope list_scope.
Open Scope stdpp_scope.

(** ** JavaScript values *)

Module JS.

(** [!!s] for a string: the empty string is the only falsy one. *)
Definition truthy_string (s : string) : bool :=
  negb (String.eqb s "").

(** [!!s] for [string | null | undefined]. *)
Definition truthy_opt_string (s : option string) : bool :=
  match s with
  | Some s => truthy_string s
  | None => false
  end.

(** [!!n] for a number: zero is falsy. *)
Definition truthy_number (n : Q) : bool :=
  negb (Qeq_bool n 0).

(** [!!n] for [number | undefined]. *)
Definition truthy_opt_number (n : option Q) : bool :=
  match n with
  | Some n => truthy_number n
  | None => false
  end.

(** [a < b] on numbers. *)
Definition lt (a b : Q) : bool := negb (Qle_bool b a).

(** [a > b] on numbers. *)
Definition gt (a b : Q) : bool := lt b a.

(** [a < b] and [a > b] where [a] may be [undefined]: [undefined] converts
    to [NaN], and every comparison with [NaN] is false. *)
Definition opt_lt (a : option Q) (b : Q) : bool :=
  match a with Some a => lt a b | None => false end.

Definition opt_gt (a : option Q) (b : Q) : bool :=
  match a with Some a => gt a b | None => false end.

(** [a || b] on [string | undefined]. *)
Definition or_string (a : option string) (b : string) : string :=
  match a with
  | Some s => if truthy_string s then s else b
  | None => b
  end.

(** The thrown values the code distinguishes: [instanceof AxiosError] is
    true of [AxiosError] only.  An [AxiosError] carries its own [message]
    and, when the server answered, [response.status] and
    [response.data.message]. *)
Record ErrorResponse := {
  err_status : Z;
  err_data_message : option string
}.

Inductive Exn :=
| Error (message : string)
| AxiosError (message : string) (response : option ErrorResponse)
| TypeError (message : string)
| RangeError (message : string).

Definition instanceof_AxiosError (e : Exn) : bool :=
  match e with
  | AxiosError _ _ => true
  | _ => false
  end.

End JS.
Import JS.

(** ** [config.ts] *)

Record Config := {
  email : string;
  password : string;
  clientId : string;
  clientSecret : string;
  cfg_userId : string
}.

Definition base_url : string := "https://client-api.8slp.net/v1".
Definition auth_url : string := "https://auth-api.8slp.net/v1/tokens".

(** [process.env.X || '']. *)
Definition env_or_empty (env : gmap string string) (name : string) : string :=
  or_string (env !! name) "".

Definition load_config (env : gmap string string) : Config :=
  {| email := env_or_empty env "EIGHT_SLEEP_EMAIL";
     password := env_or_empty env "EIGHT_SLEEP_PASSWORD";
     clientId := env_or_empty env "EIGHT_SLEEP_CLIENT_ID";
     clientSecret := env_or_empty env "EIGHT_SLEEP_CLIENT_SECRET";
     cfg_userId := env_or_empty env "EIGHT_SLEEP_USER_ID" |}.

(** ** Wire formats *)

(** The body of the login request. *)
Record LoginPayload := {
  client_id : string;
  client_secret : string;
  grant_type : string;
  username : string;
  login_password : string
}.

(** [AuthResponse], with [message] for the error bodies. *)
Record AuthData := {
  access_token : option string;
  auth_message : option string
}.

Inductive Method := GET | PUT | POST | PATCH | DELETE.

(** The bodies the modelled methods send. *)
Inductive Body :=
| NoBody
| CurrentLevel (level : Q)                        (* { currentLevel: level } *)
| TimeBased (level : Q) (durationSeconds : Q).    (* { timeBased: {...} } *)

Record Request := {
  method : Method;
  url : string;
  params : list (string * string);
  body : Body
}.

(** A stage segment of a day record. *)
Record Segment := {
  stage : option string;
  duration : option Q
}.

Record HrvScore := {
  hrv_score : option Q;
  hrv_average : option Q;
  hrv_minimum : option Q;
  hrv_maximum : option Q
}.

Record RespiratoryRate := {
  resp_score : option Q
}.

Record SleepQualityScore := {
  sq_hrv : option HrvScore;
  sq_respiratoryRate : option RespiratoryRate
}.

Record Day := {
  score : option Q;
  sleepQualityScore : option SleepQualityScore;
  tnt : option Q;
  stages : option (list Segment)
}.

Record CurrentState := {
  state_level : option Q
}.

(** [response.data] of a resource call: the properties the code reads.
    [payload] stands for the document as a whole, which [getUsers] passes on
    unread. *)
Record Data := {
  message : option string;
  currentState : option CurrentState;
  currentLevel : option Q;
  days : option (list Day);
  payload : string
}.

Definition no_data : Data :=
  {| message := None; currentState := None; currentLevel := None;
     days := None; payload := "" |}.

Record Response (D : Type) := {
  status : Z;
  data : D
}.
Arguments status {D} _.
Arguments data {D} _.

(** What a remote party does with a request: it answers with a status and a
    document, or the transport fails without an answer. *)
Inductive Reply (D : Type) :=
| Responded (r : Response D)
| NoResponse (message : string).
Arguments Responded {D} _.
Arguments NoResponse {D} _.

(** ** What is observable of a run *)

Inductive Event :=
| CallAuthenticate                               (* authenticate() is entered *)
| NetLogin (p : LoginPayload)                    (* a request to the token endpoint *)
| TokenWrite (t : option string)                 (* an assignment to this.token *)
| NetResource (req : Request) (bearer : option string).  (* a request to the vendor API *)

Definition is_CallAuthenticate (e : Event) : bool :=
  match e with CallAuthenticate => true | _ => false end.

Definition is_network (e : Event) : bool :=
  match e with NetLogin _ | NetResource _ _ => true | _ => false end.

Definition is_NetResource (e : Event) : bool :=
  match e with NetResource _ _ => true | _ => false end.

Definition is_TokenWrite (e : Event) : bool :=
  match e with TokenWrite _ => true | _ => false end.

(** ** axios *)

(** The default [validateStatus]. *)
Definition validateStatus (s : Z) : bool :=
  (200 <=? s)%Z && (s <? 300)%Z.

(** How a promise of the model ends: fulfilled, rejected, or still pending
    when the step budget is used up. *)
Inductive Outcome (A : Type) :=
| Returned (a : A)
| Thrown (e : Exn)
| Pending.
Arguments Returned {A} _.
Arguments Thrown {A} _.
Arguments Pending {A}.

(** [settle]: a response outside 2xx and a failed transport both reject with
    an [AxiosError]. *)
Definition settle {D} (message_of : D -> option string) (r : Reply D)
  : Outcome (Response D) :=
  match r with
  | Responded resp =>
      if validateStatus (status resp) then Returned resp
      else Thrown (AxiosError
                     ("Request failed with status code " +:+ pretty (status resp))
                     (Some {| err_status := status resp;
                              err_data_message := message_of (data resp) |}))
  | NoResponse msg => Thrown (AxiosError msg None)
  end.

(** [error.response?.data?.message || error.message] *)
Definition error_detail (e : Exn) : string :=
  match e with
  | AxiosError msg (Some r) => or_string (err_data_message r) msg
  | AxiosError msg None => msg
  | Error msg | TypeError msg | RangeError msg => msg
  end.

(** [error.response?.status === 401] *)
Definition is_401 (e : Exn) : bool :=
  match e with
  | AxiosError _ (Some r) => (err_status r =? 401)%Z
  | _ => false
  end.

(** ** Promises: state, exceptions and a step budget *)

Definition M (S A : Type) : Type := S -> Outcome A * S.

Definition ret {S A} (a : A) : M S A := fun st => (Returned a, st).

Definition throw {S A} (e : Exn) : M S A := fun st => (Thrown e, st).

Definition pending {S A} : M S A := fun st => (Pending, st).

Definition bind {S A B} (m : M S A) (k : A -> M S B) : M S B :=
  fun st =>
    match m st with
    | (Returned a, st') => k a st'
    | (Thrown e, st') => (Thrown e, st')
    | (Pending, st') => (Pending, st')
    end.

(** [try { m } catch (error) { handler }] *)
Definition try_catch {S A} (m : M S A) (handler : Exn -> M S A) : M S A :=
  fun st =>
    match m st with
    | (Thrown e, st') => handler e st'
    | r => r
    end.

Notation "'await' x <- m ; k" := (bind m (fun x => k))
  (at level 10, x name, m at level 100, k at level 200,
   format "'[v' 'await'  x  <-  m ; '/' k ']'").
Notation "'run' m ; k" := (bind m (fun _ => k))
  (at level 10, m at level 100, k at level 200,
   format "'[v' 'run'  m ; '/' k ']'").

(** The catch block every facade method ends with:
    [if (error instanceof AxiosError) throw new Error(`${what}: ${detail}`);
     throw error;] *)
Definition rethrow {S A} (what : string) (m : M S A) : M S A :=
  try_catch m (fun error =>
    if instanceof_AxiosError error
    then throw (Error (what +:+ ": " +:+ error_detail error))
    else throw error).

(** ** The client object *)

Record Client := {
  token : option string;
  userId : option string
}.

(** [new EightSleepClient()] *)
Definition new_client : Client := {| token := None; userId := None |}.

Record State (World : Type) := {
  client : Client;
  world : World;
  log : list Event
}.
Arguments client {World} _.
Arguments world {World} _.
Arguments log {World} _.

(** ** Results of the facade *)

Record TemperatureData := {
  current : option Q;
  target : option Q;
  heating : bool;
  cooling : bool
}.

Record SleepScore := {
  total : option Q;
  hrv : option Q;
  breathing : option Q;
  tossAndTurns : option Q
}.

Record HrvData := {
  average : option Q;
  hrv_min : option Q;
  hrv_max : option Q
}.

Record HrvReport := {
  hrv_date : string;
  hrvData : HrvData
}.

(** The messages of the errors the code throws. *)
Definition missing_credentials : string :=
  "Missing required credentials. Please check your .env file for EIGHT_SLEEP_EMAIL and EIGHT_SLEEP_PASSWORD".
Definition auth_failed : string := "Failed to authenticate with Eight Sleep".
Definition level_out_of_range : string :=
  "Temperature level must be between -100 and 100".
Definition no_sleep_data (date : string) : string :=
  "No sleep data found for date " +:+ date.
Definition temperature_updated : string := "Temperature updated successfully".

(** The error taxonomy of the specification, in terms of what is thrown. *)
Definition ConfigurationError : Exn := Error missing_credentials.
Definition ValidationError : Exn := Error level_out_of_range.
Definition NotFoundError (date : string) : Exn := Error (no_sleep_data date).
Definition NotAuthenticated : Exn := Error "Not authenticated".
Definition AuthenticationError (e : Exn) : Prop :=
  e = Error auth_failed \/ exists detail, e = Error (auth_failed +:+ ": " +:+ detail).

(** [s.split('T')[0]] *)
Fixpoint before_T (s : string) : string :=
  match s with
  | EmptyString => EmptyString
  | String c s' => if Ascii.eqb c "T" then EmptyString else String c (before_T s')
  end.

Definition day_ms : Z := 24 * 60 * 60 * 1000.

(** The assignment [stageMap[key] = value] in the loop of [getSleepStages]
    creates the property, except for the key
    [__proto__], which a plain object routes to the prototype setter (and
    that setter ignores a number). *)
Definition assign (stageMap : gmap string Q) (key : string) (value : Q)
  : gmap string Q :=
  if String.eqb key "__proto__" then stageMap else <[key := value]> stageMap.

(** ** Two remote worlds to run the client against *)

(** A scripted world: each party answers with the next reply of its script,
    whatever the request, and the transport fails once the script is used
    up. *)
Record Script := {
  auth_replies : list (Reply AuthData);
  resource_replies : list (Reply Data)
}.

Definition scripted_token_endpoint (w : Script) (p : LoginPayload)
  : Reply AuthData * Script :=
  match auth_replies w with
  | r :: rs => (r, {| auth_replies := rs; resource_replies := resource_replies w |})
  | [] => (NoResponse "Network Error", w)
  end.

Definition scripted_vendor (w : Script) (req : Request) (bearer : option string)
  : Reply Data * Script :=
  match resource_replies w with
  | r :: rs => (r, {| auth_replies := auth_replies w; resource_replies := rs |})
  | [] => (NoResponse "Network Error", w)
  end.

(** A world that grants every login the same token and rejects every
    resource request with a 401. *)
Definition granting_token_endpoint (w : unit) (p : LoginPayload)
  : Reply AuthData * unit :=
  (Responded {| status := 200;
                data := {| access_token := Some "tok"; auth_message := None |} |},
   w).

Definition rejecting_vendor (w : unit) (req : Request) (bearer : option string)
  : Reply Data * unit :=
  (Responded {| status := 401; data := no_data |}, w).

(** Shorthands for scripts. *)
Definition ok (d : Data) : Reply Data :=
  Responded {| status := 200; data := d |}.

Definition unauthorized : Reply Data :=
  Responded {| status := 401; data := no_data |}.

Definition grant (t : string) : Reply AuthData :=
  Responded {| status := 200;
               data := {| access_token := Some t; auth_message := None |} |}.

(** A configuration with credentials and a default user. *)
Definition demo_config : Config :=
  load_config {[ "EIGHT_SLEEP_EMAIL" := "user@example.com";
                 "EIGHT_SLEEP_PASSWORD" := "secret";
                 "EIGHT_SLEEP_USER_ID" := "user1" ]}.

(** A client that holds the token [t0], in front of a scripted world. *)
Definition holding (w : Script) : State Script :=
  {| client := {| token := Some "t0"; userId := Some "user1" |};
     world := w; log := [] |}.

(** A client fresh from its constructor. *)
Definition fresh {W} (w : W) : State W :=
  {| client := new_client; world := w; log := [] |}.

Definition me : Request :=
  {| method := GET; url := "/users/me"; params := []; body := NoBody |}.

Definition no_user_config : Config :=
  load_config {[ "EIGHT_SLEEP_EMAIL" := "user@example.com";
                 "EIGHT_SLEEP_PASSWORD" := "secret" ]}.

Definition day_without_stages : Day :=
  {| score := Some 80%Q; sleepQualityScore := None; tnt := Some 12%Q;
     stages := None |}.

Definition trends (ds : option (list Day)) : Data :=
  {| message := None; currentState := None; currentLevel := None;
     days := ds; payload := "" |}.

Definition temperature (cur tgt : Q) : Data :=
  {| message := None;
     currentState := Some {| state_level := Some cur |};
     currentLevel := Some tgt;
     days := None; payload := "" |}.

Definition segment (name : string) (d : Q) : Segment :=
  {| stage := Some name; duration := Some d |}.

Definition day_with_stages (segs : list Segment) : Day :=
  {| score := None; sleepQualityScore := None; tnt := None;
     stages := Some segs |}.

(** An answer of the vendor with status [s] and, possibly, a message. *)
Definition failure_data (m : option string) : Data :=
  {| message := m; currentState := None; currentLevel := None;
     days := None; payload := "" |}.

Definition failing (s : Z) (m : option string) : Reply Data :=
  Responded {| status := s; data := failure_data m |}.

(** An answer of the token endpoint that grants nothing. *)
Definition refuse (s : Z) (m : option string) : Reply AuthData :=
  Responded {| status := s;
               data := {| access_token := None; auth_message := m |} |}.

(** ** The date-only fragment of the platform's [Date]

    [new Date("YYYY-MM-DD")], for a calendar date, is midnight UTC of that
    day.  This instance reads calendar dates of that form and nothing else
    (the platform reads more); the client is not tied to it, it takes its
    [Date] as a parameter.  Days are counted from 1970-01-01 in the proleptic
    Gregorian calendar. *)
Module IsoDate.

Definition digit_value (c : ascii) : option Z :=
  let n := Z.of_nat (nat_of_ascii c) in
  if (48 <=? n)%Z && (n <=? 57)%Z then Some (n - 48)%Z else None.

Fixpoint number_of (acc : Z) (cs : list ascii) : option Z :=
  match cs with
  | [] => Some acc
  | c :: cs' =>
      match digit_value c with
      | Some d => number_of (10 * acc + d)%Z cs'
      | None => None
      end
  end.

Definition digit_char (d : Z) : ascii :=
  ascii_of_nat (Z.to_nat (48 + d mod 10)).

(** The [width] lowest decimal digits of [n]. *)
Fixpoint digits (width : nat) (n : Z) (tail : string) : string :=
  match width with
  | O => tail
  | S w => digits w (n / 10)%Z (String (digit_char n) tail)
  end.

Definition is_leap (y : Z) : bool :=
  ((y mod 4 =? 0) && negb (y mod 100 =? 0) || (y mod 400 =? 0))%Z.

Definition days_in_month (y m : Z) : Z :=
  if (m =? 2)%Z then (if is_leap y then 29 else 28)%Z
  else if ((m =? 4) || (m =? 6) || (m =? 9) || (m =? 11))%Z then 30%Z
  else 31%Z.

Definition days_from_civil (y m d : Z) : Z :=
  let y' := (if m <=? 2 then y - 1 else y)%Z in
  let era := (y' / 400)%Z in
  let yoe := (y' - era * 400)%Z in
  let mp := (if 2 <? m then m - 3 else m + 9)%Z in
  let doy := ((153 * mp + 2) / 5 + d - 1)%Z in
  let doe := (yoe * 365 + yoe / 4 - yoe / 100 + doy)%Z in
  (era * 146097 + doe - 719468)%Z.

Definition civil_from_days (z : Z) : Z * Z * Z :=
  let z := (z + 719468)%Z in
  let era := (z / 146097)%Z in
  let doe := (z - era * 146097)%Z in
  let yoe := ((doe - doe / 1460 + doe / 36524 - doe / 146096) / 365)%Z in
  let doy := (doe - (365 * yoe + yoe / 4 - yoe / 100))%Z in
  let mp := ((5 * doy + 2) / 153)%Z in
  let d := (doy - (153 * mp + 2) / 5 + 1)%Z in
  let m := (if mp <? 10 then mp + 3 else mp - 9)%Z in
  let y := (yoe + era * 400 + (if m <=? 2 then 1 else 0))%Z in
  (y, m, d).

(** [new Date(s).getTime()] for a calendar date [s] of the form
    [YYYY-MM-DD]. *)
Definition getTime (s : string) : option Z :=
  match list_ascii_of_string s with
  | [y1; y2; y3; y4; "-"%char; m1; m2; "-"%char; d1; d2] =>
      y ← number_of 0 [y1; y2; y3; y4];
      m ← number_of 0 [m1; m2];
      d ← number_of 0 [d1; d2];
      if ((1 <=? m) && (m <=? 12) && (1 <=? d) && (d <=? days_in_month y m))%Z
      then Some (days_from_civil y m d * 86400000)%Z
      else None
  | _ => None
  end.

(** [new Date(t).toISOString()] for the years 0000 to 9999. *)
Definition toISOString (t : Z) : option string :=
  let '(y, m, d) := civil_from_days (t / 86400000) in
  let ms := (t mod 86400000)%Z in
  if ((0 <=? y) && (y <=? 9999))%Z then
    Some (digits 4 y ("-" +:+ digits 2 m ("-" +:+ digits 2 d
           ("T" +:+ digits 2 (ms / 3600000)
           (":" +:+ digits 2 (ms / 60000 mod 60)
           (":" +:+ digits 2 (ms / 1000 mod 60)
           ("." +:+ digits 3 (ms mod 1000) "Z")))))))
  else None.

End IsoDate.

(** ** The ASCII fragment of the platform's [toLowerCase]

    [String.prototype.toLowerCase] follows the Unicode case mappings.  This
    instance lowers the letters A to Z and leaves every other character as
    it is, which is what the platform does to a string of ASCII characters;
    the client is not tied to it, it takes its [toLowerCase] as a
    parameter. *)
Module AsciiCase.

Definition lower_ascii (c : ascii) : ascii :=
  let n := nat_of_ascii c in
  if (65 <=? n)%nat && (n <=? 90)%nat then ascii_of_nat (n + 32) else c.

Fixpoint toLowerCase (s : string) : string :=
  match s with
  | EmptyString => EmptyString
  | String c s' => String (lower_ascii c) (toLowerCase s')
  end.

End AsciiCase.

(** ** [EightSleepClient] and [EightSleepFunctions] *)

Section Client.

(** The configuration read at start-up. *)
Context (config : Config).

(** The two remote parties.  [vendor] sees the request and the value of its
    [Authorization: Bearer] header, if one was attached. *)
Context {World : Type}.
Context (token_endpoint : World -> LoginPayload -> Reply AuthData * World).
Context (vendor : World -> Request -> option string -> Reply Data * World).

(** The platform's [Date]: [new Date(s).getTime()], where [None] is [NaN],
    and [new Date(t).toISOString()], where [None] is the [RangeError] of an
    invalid time value. *)
Context (Date_getTime : string -> option Z).
Context (Date_toISOString : Z -> option string).

(** The platform's [String.prototype.toLowerCase]. *)
Context (toLowerCase : string -> string).

Abbreviation Promise := (M (State World)).

Definition record (e : Event) : Promise unit :=
  fun st =>
    (Returned tt,
     {| client := client st; world := world st; log := log st ++ [e] |}).

Definition get_token : Promise (option string) :=
  fun st => (Returned (token (client st)), st).

Definition get_userId : Promise (option string) :=
  fun st => (Returned (userId (client st)), st).

(** [this.token = t] *)
Definition set_token (t : option string) : Promise unit :=
  fun st =>
    (Returned tt,
     {| client := {| token := t; userId := userId (client st) |};
        world := world st;
        log := log st ++ [TokenWrite t] |}).

(** [this.userId = u] *)
Definition set_userId (u : option string) : Promise unit :=
  fun st =>
    (Returned tt,
     {| client := {| token := token (client st); userId := u |};
        world := world st;
        log := log st |}).

(** [this.authClient.post('', payload)]: no interceptor is installed on the
    authentication client. *)
Definition authClient_post (p : LoginPayload) : Promise (Response AuthData) :=
  fun st =>
    let '(reply, w) := token_endpoint (world st) p in
    (settle auth_message reply,
     {| client := client st; world := w; log := log st ++ [NetLogin p] |}).

Definition login_payload : LoginPayload :=
  {| client_id := clientId config;
     client_secret := clientSecret config;
     grant_type := "password";
     username := email config;
     login_password := password config |}.

Definition authenticate : Promise unit :=
  run record CallAuthenticate;
  if negb (truthy_string (email config)) || negb (truthy_string (password config))
  then throw (Error missing_credentials)
  else
    try_catch
      (await response <- authClient_post login_payload;
       if negb (truthy_opt_string (access_token (data response)))
       then throw (Error "Invalid authentication response from Eight Sleep")
       else
         run set_token (access_token (data response));
         set_userId (Some (cfg_userId config)))
      (fun error =>
         if instanceof_AxiosError error
         then throw (Error (auth_failed +:+ ": " +:+ error_detail error))
         else throw (Error auth_failed)).

(** The request interceptor; its result is the [Authorization] header of the
    request that goes out. *)
Definition request_interceptor : Promise (option string) :=
  await t <- get_token;
  run (if negb (truthy_opt_string t) then authenticate else ret tt);
  await t <- get_token;
  ret (if truthy_opt_string t then t else None).

(** The adapter: the request goes to the vendor. *)
Definition dispatch (req : Request) (bearer : option string)
  : Promise (Response Data) :=
  fun st =>
    let '(reply, w) := vendor (world st) req bearer in
    (settle message reply,
     {| client := client st; world := w;
        log := log st ++ [NetResource req bearer] |}).

(** The error handler of the response interceptor.  [retry] stands for
    [this.client.request(config)], the call that repeats the request. *)
Definition response_error_interceptor (retry : Promise (Response Data))
    (error : Exn) : Promise (Response Data) :=
  if is_401 error then
    run set_token None;
    run authenticate;
    await t <- get_token;
    if truthy_opt_string t then retry
    else throw error
  else throw error.

(** [this.client.request(config)]: the request interceptor, the adapter,
    then the response interceptor.  A rejection of either of the first two
    reaches the error handler of the response interceptor, and the retry
    there is again [this.client.request].  [fuel] bounds the nesting of
    these calls. *)
Fixpoint request (fuel : nat) (req : Request) : Promise (Response Data) :=
  match fuel with
  | O => pending
  | S fuel' =>
      try_catch
        (await bearer <- request_interceptor;
         dispatch req bearer)
        (response_error_interceptor (request fuel' req))
  end.

Definition client_get (fuel : nat) (path : string) (ps : list (string * string))
  : Promise (Response Data) :=
  request fuel {| method := GET; url := path; params := ps; body := NoBody |}.

Definition client_put (fuel : nat) (path : string) (b : Body)
  : Promise (Response Data) :=
  request fuel {| method := PUT; url := path; params := []; body := b |}.

Definition getUsers (fuel : nat) : Promise (gmap string Data) :=
  rethrow "Failed to get users"
    (await u <- get_userId;
     run (if negb (truthy_opt_string u) then authenticate else ret tt);
     await u <- get_userId;
     if negb (truthy_opt_string u) then throw (Error "Not authenticated")
     else
       await response <- client_get fuel "/users/me" [];
       await u <- get_userId;
       ret ({[ default "" u := data response ]} : gmap string Data)).

Definition getCurrentTempData (fuel : nat) (uid : string)
  : Promise TemperatureData :=
  rethrow "Failed to get temperature data"
    (await userResponse <-
       client_get fuel ("/users/" +:+ uid +:+ "/temperature") [];
     match currentState (data userResponse) with
     | None =>
         throw (TypeError "Cannot read properties of undefined (reading 'level')")
     | Some cs =>
         let currentTemp := state_level cs in
         let targetTemp := currentLevel (data userResponse) in
         ret {| current := currentTemp;
                target := targetTemp;
                heating := opt_gt targetTemp 0;
                cooling := opt_lt targetTemp 0 |}
     end).

Definition setTempLevel (fuel : nat) (uid : string) (level : Q)
    (duration : option Q) : Promise string :=
  let duration := default 0%Q duration in
  rethrow "Failed to set temperature"
    (run client_put fuel ("/users/" +:+ uid +:+ "/temperature")
           (CurrentLevel level);
     run (if gt duration 0
          then run client_put fuel ("/users/" +:+ uid +:+ "/temperature")
                     (TimeBased level duration);
               ret tt
          else ret tt);
     ret temperature_updated).

(** The query of [getSleepData]. *)
Definition trends_params (startDate to : string) : list (string * string) :=
  [ ("tz", "America/Los_Angeles");
    ("from", startDate);
    ("to", to);
    ("include-main", "false");
    ("include-all-sessions", "true");
    ("model-version", "v2") ].

(** [new Date(new Date(startDate).getTime() + 24 * 60 * 60 * 1000)
      .toISOString().split('T')[0]] *)
Definition next_day (startDate : string) : Promise string :=
  match Date_getTime startDate with
  | None => throw (RangeError "Invalid time value")
  | Some t =>
      match Date_toISOString (t + day_ms) with
      | None => throw (RangeError "Invalid time value")
      | Some iso => ret (before_T iso)
      end
  end.

Definition getSleepData (fuel : nat) (uid startDate : string)
    (endDate : option string) : Promise (list Day) :=
  rethrow "Failed to get sleep data"
    (await to <- (if truthy_opt_string endDate
                  then ret (default "" endDate)
                  else next_day startDate);
     await response <-
       client_get fuel ("/users/" +:+ uid +:+ "/trends")
         (trends_params startDate to);
     ret (default [] (days (data response)))).

(** [dayData.sleepQualityScore?.hrv] *)
Definition day_hrv (dayData : Day) : option HrvScore :=
  sq ← sleepQualityScore dayData; sq_hrv sq.

Definition getSleepScore (fuel : nat) (uid date : string) : Promise SleepScore :=
  rethrow "Failed to get sleep score"
    (await sleepData <- getSleepData fuel uid date None;
     match sleepData with
     | [] => throw (Error (no_sleep_data date))
     | dayData :: _ =>
         ret {| total := score dayData;
                hrv := h ← day_hrv dayData; hrv_score h;
                breathing :=
                  sq ← sleepQualityScore dayData;
                  r ← sq_respiratoryRate sq;
                  resp_score r;
                tossAndTurns := tnt dayData |}
     end).

(** One pass of the loop of [getSleepStages]:
    [if (stage.stage && stage.duration)
       stageMap[stage.stage.toLowerCase()] = stage.duration]. *)
Definition stage_step (stageMap : gmap string Q) (seg : Segment)
  : gmap string Q :=
  match stage seg, duration seg with
  | Some name, Some d =>
      if truthy_string name && truthy_number d
      then assign stageMap (toLowerCase name) d
      else stageMap
  | _, _ => stageMap
  end.

(** The loop, from the empty [stageMap]. *)
Definition stage_loop (segments : list Segment) : gmap string Q :=
  fold_left stage_step segments ∅.

Definition getSleepStages (fuel : nat) (uid date : string)
  : Promise (gmap string Q) :=
  rethrow "Failed to get sleep stages"
    (await sleepData <- getSleepData fuel uid date None;
     match sleepData with
     | [] => throw (Error (no_sleep_data date))
     | dayData :: _ =>
         let stages := default [] (stages dayData) in
         ret (stage_loop stages)
     end).

(** [EightSleepClient.getHrv] *)
Definition client_getHrv (fuel : nat) (uid date : string) : Promise (option Q) :=
  rethrow "Failed to get HRV"
    (await sleepData <- getSleepData fuel uid date None;
     match sleepData with
     | [] => throw (Error (no_sleep_data date))
     | dayData :: _ => ret (h ← day_hrv dayData; hrv_score h)
     end).

(** *** [EightSleepFunctions] *)

Definition getTemperature (fuel : nat) (uid : string) : Promise TemperatureData :=
  getCurrentTempData fuel uid.

Definition setTemperature (fuel : nat) (uid : string) (level : Q)
    (duration : option Q) : Promise string :=
  let duration := default 0%Q duration in
  if lt level (-100) || gt level 100
  then throw (Error level_out_of_range)
  else setTempLevel fuel uid level (Some duration).

(** [EightSleepFunctions.getHrv], the one behind the [getHrv] tool. *)
Definition getHrv (fuel : nat) (uid date : string) : Promise HrvReport :=
  await sleepData <- getSleepData fuel uid date None;
  match sleepData with
  | [] => throw (Error (no_sleep_data date))
  | dayData :: _ =>
      ret {| hrv_date := date;
             hrvData :=
               {| average := h ← day_hrv dayData; hrv_average h;
                  hrv_min := h ← day_hrv dayData; hrv_minimum h;
                  hrv_max := h ← day_hrv dayData; hrv_maximum h |} |}
  end.

(** [this.client.delete(path)] *)
Definition client_delete (fuel : nat) (path : string) : Promise (Response Data) :=
  request fuel {| method := DELETE; url := path; params := []; body := NoBody |}.

(** [EightSleepClient.deleteAlarm]; the method of the same name of
    [EightSleepFunctions] only awaits this one.  There is no [catch] here. *)
Definition deleteAlarm (fuel : nat) (uid alarmId : string) : Promise unit :=
  run client_delete fuel ("/users/" +:+ uid +:+ "/alarms/" +:+ alarmId);
  ret tt.

(** [EightSleepClient.deleteTemperatureSchedule], likewise. *)
Definition deleteTemperatureSchedule (fuel : nat) (uid scheduleId : string)
  : Promise unit :=
  run client_delete fuel
        ("/users/" +:+ uid +:+ "/temperature/schedules/" +:+ scheduleId);
  ret tt.

(** *** Vocabulary of the statements *)

(** Credentials are present when both fields are non-empty. *)
Definition has_credentials : Prop :=
  email config ≠ "" /\ password config ≠ "".

Definition after {W} (st : State W) (c : Client) (w : W) (evs : list Event)
  : State W :=
  {| client := c; world := w; log := log st ++ evs |}.

(** What a run has logged since an earlier state of it. *)
Definition events_since (st0 st' : State World) : list Event :=
  drop (length (log st0)) (log st').

(** [only_logs Q m]: whatever [m] does, it only appends to the log, and every
    event it appends satisfies [Q]. *)
Definition only_logs {A} (Q : Event -> Prop) (m : Promise A) : Prop :=
  forall st, exists evs,
    log (snd (m st)) = log st ++ evs /\ Forall Q evs.

(** The events that are not a request to the vendor. *)
Definition not_resource (e : Event) : Prop := is_NetResource e = false.

(** The events that are not a request to the vendor other than one of [rs]. *)
Definition resource_among (rs : list Request) (e : Event) : Prop :=
  match e with
  | NetResource r _ => r ∈ rs
  | _ => True
  end.

Definition preserves {A} (P : State World -> Prop) (m : Promise A) : Prop :=
  forall st, P st -> P (snd (m st)).

(** The client's user id is never anything but the configured one. *)
Definition userId_from_config (st : State World) : Prop :=
  userId (client st) = None \/ userId (client st) = Some (cfg_userId config).

Definition starts_with {A} (e : Event) (m : Promise A) (st : State World) : Prop :=
  exists rest, log (snd (m st)) = log st ++ e :: rest.

Definition temperature_path (uid : string) : string :=
  "/users/" +:+ uid +:+ "/temperature".

(** The level-set request and the request for a time-boxed override. *)
Definition level_request (uid : string) (level : Q) : Request :=
  {| method := PUT; url := temperature_path uid; params := [];
     body := CurrentLevel level |}.

Definition duration_request (uid : string) (level duration : Q) : Request :=
  {| method := PUT; url := temperature_path uid; params := [];
     body := TimeBased level duration |}.

Definition trends_path (uid : string) : string :=
  "/users/" +:+ uid +:+ "/trends".

(** The query [getSleepData] sends for the range from [startDate] to [to]. *)
Definition trends_request (uid startDate to : string) : Request :=
  {| method := GET; url := trends_path uid;
     params := trends_params startDate to; body := NoBody |}.

(** A segment the loop of [getSleepStages] takes up: its name and its
    duration are both truthy. *)
Definition usable (seg : Segment) : bool :=
  truthy_opt_string (stage seg) && truthy_opt_number (duration seg).

(** [error instanceof AxiosError], of what a promise was rejected with. *)
Definition rejected_with_AxiosError {A} (r : Outcome A) : bool :=
  match r with
  | Thrown e => instanceof_AxiosError e
  | _ => false
  end.

(** [promise.then(f)] on outcomes. *)
Definition map_outcome {A B} (f : A -> B) (r : Outcome A) : Outcome B :=
  match r with
  | Returned a => Returned (f a)
  | Thrown e => Thrown e
  | Pending => Pending
  end.

(** The message of the [AxiosError] of a response with status [s]. *)
Definition status_message (s : Z) : string :=
  "Request failed with status code " +:+ pretty s.

(** The request of [deleteAlarm]. *)
Definition delete_alarm_request (uid alarmId : string) : Request :=
  {| method := DELETE; url := "/users/" +:+ uid +:+ "/alarms/" +:+ alarmId;
     params := []; body := NoBody |}.

(** The request of [deleteTemperatureSchedule]. *)
Definition delete_schedule_request (uid scheduleId : string) : Request :=
  {| method := DELETE;
     url := "/users/" +:+ uid +:+ "/temperature/schedules/" +:+ scheduleId;
     params := []; body := NoBody |}.

(** The request of [getUsers] and the request of [getCurrentTempData]. *)
Definition users_me_request : Request :=
  {| method := GET; url := "/users/me"; params := []; body := NoBody |}.

Definition temperature_request (uid : string) : Request :=
  {| method := GET; url := temperature_path uid; params := []; body := NoBody |}.

(** ** Facts about the client *)

(** *** JavaScript truthiness *)

Lemma truthy_string_true (s : string) : s ≠ "" -> truthy_string s = true.
Proof.
  intros Hs. unfold truthy_string.
  destruct (String.eqb_spec s "") as [E|E]; [contradiction | reflexivity].
Qed.

Lemma truthy_string_false (s : string) : truthy_string s = false -> s = "".
Proof.
  unfold truthy_string.
  destruct (String.eqb_spec s "") as [E|E]; [auto | discriminate].
Qed.

Lemma truthy_number_spec (n : Q) : truthy_number n = false <-> (n == 0)%Q.
Proof.
  unfold truthy_number. rewrite negb_false_iff. apply Qeq_bool_iff.
Qed.

Lemma lt_spec (a b : Q) : lt a b = true <-> (a < b)%Q.
Proof.
  unfold lt. rewrite negb_true_iff. split.
  - intros H. apply Qnot_le_lt. intros Hle.
    apply Qle_bool_iff in Hle. congruence.
  - intros H. destruct (Qle_bool b a) eqn:E; [| reflexivity].
    apply Qle_bool_iff in E. apply Qle_not_lt in E. contradiction.
Qed.

Lemma lt_false (a b : Q) : lt a b = false <-> (b <= a)%Q.
Proof.
  unfold lt. rewrite negb_false_iff. apply Qle_bool_iff.
Qed.

(** *** Configuration *)

(** A variable that is not set, or set to the empty string, reads as the
    empty string. *)
Lemma env_or_empty_missing env name :
  env !! name = None \/ env !! name = Some "" -> env_or_empty env name = "".
Proof. unfold env_or_empty. intros [-> | ->]; reflexivity. Qed.

Lemma load_config_missing_credentials env :
  env !! "EIGHT_SLEEP_EMAIL" = None \/ env !! "EIGHT_SLEEP_PASSWORD" = None ->
  email (load_config env) = "" \/ password (load_config env) = "".
Proof.
  intros [H | H]; [left | right]; simpl; apply env_or_empty_missing; auto.
Qed.

(** *** [authenticate] *)

Lemma authenticate_missing (st : State World) :
  email config = "" \/ password config = "" ->
  authenticate st
  = (Thrown ConfigurationError,
     after st (client st) (world st) [CallAuthenticate]).
Proof.
  intros H. unfold authenticate, bind, record, throw, after. simpl.
  destruct H as [-> | ->]; simpl.
  - reflexivity.
  - rewrite orb_true_r. reflexivity.
Qed.

Lemma authenticate_granted (st : State World) s a t w' :
  has_credentials ->
  token_endpoint (world st) login_payload
  = (Responded {| status := s; data := a |}, w') ->
  validateStatus s = true ->
  access_token a = Some t -> t ≠ "" ->
  authenticate st
  = (Returned tt,
     after st {| token := Some t; userId := Some (cfg_userId config) |} w'
       [CallAuthenticate; NetLogin login_payload; TokenWrite (Some t)]).
Proof.
  intros [He Hp] Hreply Hs Ha Ht.
  unfold authenticate, bind, try_catch, record, authClient_post, after. simpl.
  rewrite (truthy_string_true _ He), (truthy_string_true _ Hp). simpl.
  rewrite Hreply. simpl. rewrite Hs. simpl. rewrite Ha. simpl.
  rewrite (truthy_string_true _ Ht). simpl.
  unfold set_token, set_userId. simpl.
  rewrite <- !app_assoc. reflexivity.
Qed.

(** *** The interceptors *)

Lemma request_interceptor_held (st : State World) tok :
  token (client st) = Some tok -> tok ≠ "" ->
  request_interceptor st = (Returned (Some tok), st).
Proof.
  intros Ht Hne. unfold request_interceptor, bind, get_token, ret.
  rewrite Ht. simpl. rewrite (truthy_string_true _ Hne). simpl.
  rewrite Ht. simpl. rewrite (truthy_string_true _ Hne). reflexivity.
Qed.

(** A request that leaves with a bearer token leaves with the held one. *)
Lemma request_interceptor_bearer (st st0 : State World) tok :
  request_interceptor st = (Returned (Some tok), st0) ->
  token (client st0) = Some tok /\ tok ≠ "".
Proof.
  unfold request_interceptor, bind, get_token, ret.
  destruct (negb (truthy_opt_string (token (client st)))).
  - destruct (authenticate st) as [[u | e |] st1]; try discriminate.
    destruct (token (client st1)) as [t|] eqn:Et; simpl; try discriminate.
    destruct (truthy_string t) eqn:Tt; try discriminate.
    intros [= <- <-]. split; [assumption |].
    intros ->. discriminate.
  - destruct (token (client st)) as [t|] eqn:Et; simpl; try discriminate.
    destruct (truthy_string t) eqn:Tt; try discriminate.
    intros [= <- <-]. split; [assumption |].
    intros ->. discriminate.
Qed.

(** A 2xx answer ends the request. *)
Lemma request_fulfilled fuel req (st st0 : State World) bearer resp w :
  request_interceptor st = (Returned bearer, st0) ->
  vendor (world st0) req bearer = (Responded resp, w) ->
  validateStatus (status resp) = true ->
  request (S fuel) req st
  = (Returned resp, after st0 (client st0) w [NetResource req bearer]).
Proof.
  intros Hi Hv Hs. simpl. unfold try_catch, bind. rewrite Hi.
  unfold dispatch. rewrite Hv. simpl. rewrite Hs. reflexivity.
Qed.

(** A 401 answer followed by a granted login re-enters [request]: the retry
    is one more call of the same intercepted client. *)
Lemma request_reenters fuel req (st st0 : State World) tok d w1 s a t' w2 :
  request_interceptor st = (Returned (Some tok), st0) ->
  vendor (world st0) req (Some tok)
  = (Responded {| status := 401; data := d |}, w1) ->
  has_credentials ->
  token_endpoint w1 login_payload
  = (Responded {| status := s; data := a |}, w2) ->
  validateStatus s = true ->
  access_token a = Some t' -> t' ≠ "" ->
  request (S fuel) req st
  = request fuel req
      (after st0 {| token := Some t'; userId := Some (cfg_userId config) |} w2
         [NetResource req (Some tok); TokenWrite None; CallAuthenticate;
          NetLogin login_payload; TokenWrite (Some t')]).
Proof.
  intros Hi Hv Hc Ha Hs Hat Hne. simpl. unfold try_catch at 1, bind at 1.
  rewrite Hi. unfold dispatch. rewrite Hv. simpl.
  unfold response_error_interceptor. simpl.
  unfold bind at 1, set_token at 1. simpl.
  unfold bind at 1.
  erewrite authenticate_granted; eauto. simpl.
  unfold bind, get_token, after. simpl.
  rewrite (truthy_string_true _ Hne).
  rewrite <- !app_assoc. reflexivity.
Qed.

Lemma request_interceptor_lazy (st : State World) s a t w' :
  truthy_opt_string (token (client st)) = false ->
  has_credentials ->
  token_endpoint (world st) login_payload
  = (Responded {| status := s; data := a |}, w') ->
  validateStatus s = true ->
  access_token a = Some t -> t ≠ "" ->
  request_interceptor st
  = (Returned (Some t),
     after st {| token := Some t; userId := Some (cfg_userId config) |} w'
       [CallAuthenticate; NetLogin login_payload; TokenWrite (Some t)]).
Proof.
  intros Hf Hc Ha Hs Hat Hne.
  unfold request_interceptor, bind at 1, get_token at 1. rewrite Hf. simpl.
  unfold bind at 1. erewrite authenticate_granted; eauto.
  unfold bind, get_token, ret, after. simpl.
  rewrite (truthy_string_true _ Hne). reflexivity.
Qed.

Lemma events_since_after (st0 : State World) c w evs :
  events_since st0 (after st0 c w evs) = evs.
Proof.
  unfold events_since, after. simpl. apply drop_app_length.
Qed.

(** C2. A resource request that goes out with a bearer token, is answered
    with a 401, and whose retry is answered with a 2xx status: the caller gets
    the answer of the retry; between the two attempts the token is cleared
    once and replaced once by the newly granted one, [authenticate] is
    entered exactly once and the token endpoint is asked exactly once; the
    retry carries the same request with the new token. *)
Theorem retry_once_then_success
    fuel req (st st0 : State World) tok d w1 s a tok' w2 resp w3 :
  request_interceptor st = (Returned (Some tok), st0) ->
  vendor (world st0) req (Some tok)
  = (Responded {| status := 401; data := d |}, w1) ->
  has_credentials ->
  token_endpoint w1 login_payload
  = (Responded {| status := s; data := a |}, w2) ->
  validateStatus s = true ->
  access_token a = Some tok' -> tok' ≠ "" ->
  vendor w2 req (Some tok') = (Responded resp, w3) ->
  validateStatus (status resp) = true ->
  exists st',
    request (S (S fuel)) req st = (Returned resp, st')
    /\ token (client st') = Some tok'
    /\ world st' = w3
    /\ events_since st0 st'
       = [NetResource req (Some tok);
          TokenWrite None; CallAuthenticate; NetLogin login_payload;
          TokenWrite (Some tok');
          NetResource req (Some tok')]
    /\ filter is_TokenWrite (events_since st0 st')
       = [TokenWrite None; TokenWrite (Some tok')]
    /\ length (filter is_CallAuthenticate (events_since st0 st')) = 1%nat
    /\ length (filter is_NetResource (events_since st0 st')) = 2%nat.
Proof.
  intros Hi Hv1 Hc Ha Hs Hat Hne Hv2 Hs2.
  eexists. split.
  - erewrite request_reenters; eauto.
    erewrite request_fulfilled;
      [ reflexivity
      | apply request_interceptor_held; [reflexivity | exact Hne]
      | exact Hv2
      | exact Hs2 ].
  - unfold after, events_since. simpl.
    rewrite <- !app_assoc. rewrite drop_app_length. simpl.
    repeat split; reflexivity.
Qed.

(** *** Missing credentials *)

(** C7. With an empty e-mail or an empty password, [authenticate] throws the
    configuration error without asking the token endpoint; so does a resource
    request of a client that holds no token, and [getUsers] of a client that
    has no user id.  In each case the only thing that happened is a single
    entry into [authenticate]: nothing went over the network and nothing was
    tried again. *)
Theorem missing_credentials_fail_before_network fuel req (st : State World) :
  email config = "" \/ password config = "" ->
  let st' := after st (client st) (world st) [CallAuthenticate] in
  authenticate st = (Thrown ConfigurationError, st')
  /\ (truthy_opt_string (token (client st)) = false ->
      request (S fuel) req st = (Thrown ConfigurationError, st'))
  /\ (truthy_opt_string (userId (client st)) = false ->
      getUsers fuel st = (Thrown ConfigurationError, st'))
  /\ filter is_network (events_since st st') = []
  /\ length (filter is_CallAuthenticate (events_since st st')) = 1%nat
  /\ world st' = world st.
Proof.
  intros H. simpl. repeat split.
  - apply authenticate_missing, H.
  - intros Hf. simpl. unfold try_catch, bind at 1, request_interceptor.
    unfold bind at 1, get_token at 1. rewrite Hf. simpl.
    unfold bind at 1. rewrite (authenticate_missing st H). reflexivity.
  - intros Hf. unfold getUsers, rethrow, try_catch.
    unfold bind at 1, get_userId at 1. rewrite Hf. simpl.
    unfold bind at 1. rewrite (authenticate_missing st H). reflexivity.
  - rewrite events_since_after. reflexivity.
  - rewrite events_since_after. reflexivity.
Qed.

(** *** What a computation may log *)

Lemma only_logs_weaken {A} (Q Q' : Event -> Prop) (m : Promise A) :
  (forall e, Q e -> Q' e) -> only_logs Q m -> only_logs Q' m.
Proof.
  intros HQ Hm st. destruct (Hm st) as (evs & E & F).
  exists evs. split; [exact E |]. eapply Forall_impl; eauto.
Qed.

Lemma only_logs_silent {A} Q (m : Promise A) :
  (forall st, log (snd (m st)) = log st) -> only_logs Q m.
Proof.
  intros H st. exists []. rewrite app_nil_r. split; [apply H | constructor].
Qed.

Lemma only_logs_ret {A} Q (a : A) : only_logs Q (ret a).
Proof. apply only_logs_silent. reflexivity. Qed.

Lemma only_logs_throw {A} Q e : only_logs Q (throw e : Promise A).
Proof. apply only_logs_silent. reflexivity. Qed.

Lemma only_logs_pending {A} Q : only_logs Q (pending : Promise A).
Proof. apply only_logs_silent. reflexivity. Qed.

Lemma only_logs_bind {A B} Q (m : Promise A) (k : A -> Promise B) :
  only_logs Q m -> (forall a, only_logs Q (k a)) -> only_logs Q (bind m k).
Proof.
  intros Hm Hk st. unfold bind.
  destruct (Hm st) as (evs1 & E1 & F1).
  destruct (m st) as [[a | e |] st1]; simpl in *.
  - destruct (Hk a st1) as (evs2 & E2 & F2).
    exists (evs1 ++ evs2). rewrite E2, E1, app_assoc.
    split; [reflexivity | apply Forall_app; auto].
  - exists evs1. auto.
  - exists evs1. auto.
Qed.

Lemma only_logs_try_catch {A} Q (m : Promise A) (h : Exn -> Promise A) :
  only_logs Q m -> (forall e, only_logs Q (h e)) -> only_logs Q (try_catch m h).
Proof.
  intros Hm Hh st. unfold try_catch.
  destruct (Hm st) as (evs1 & E1 & F1).
  destruct (m st) as [[a | e |] st1]; simpl in *.
  - exists evs1. auto.
  - destruct (Hh e st1) as (evs2 & E2 & F2).
    exists (evs1 ++ evs2). rewrite E2, E1, app_assoc.
    split; [reflexivity | apply Forall_app; auto].
  - exists evs1. auto.
Qed.

Lemma only_logs_rethrow {A} Q what (m : Promise A) :
  only_logs Q m -> only_logs Q (rethrow what m).
Proof.
  intros Hm. apply only_logs_try_catch; [exact Hm |].
  intros e. destruct (instanceof_AxiosError e); apply only_logs_throw.
Qed.

Lemma only_logs_record Q e : Q e -> only_logs Q (record e).
Proof.
  intros He st. exists [e]. split; [reflexivity | repeat constructor; exact He].
Qed.

Lemma only_logs_set_token Q t : Q (TokenWrite t) -> only_logs Q (set_token t).
Proof.
  intros He st. exists [TokenWrite t].
  split; [reflexivity | repeat constructor; exact He].
Qed.

Lemma only_logs_authClient_post Q p :
  Q (NetLogin p) -> only_logs Q (authClient_post p).
Proof.
  intros He st. exists [NetLogin p]. unfold authClient_post.
  destruct (token_endpoint (world st) p) as [reply w].
  split; [reflexivity | repeat constructor; exact He].
Qed.

Lemma only_logs_dispatch Q req bearer :
  Q (NetResource req bearer) -> only_logs Q (dispatch req bearer).
Proof.
  intros He st. exists [NetResource req bearer]. unfold dispatch.
  destruct (vendor (world st) req bearer) as [reply w].
  split; [reflexivity | repeat constructor; exact He].
Qed.

Lemma not_resource_among rs e : not_resource e -> resource_among rs e.
Proof. destruct e; simpl; auto. discriminate. Qed.

Lemma resource_among_mono rs rs' e :
  rs ⊆ rs' -> resource_among rs e -> resource_among rs' e.
Proof. intros Hsub. destruct e; simpl; auto. Qed.

(** [authenticate] never asks the vendor anything. *)
Lemma authenticate_only_logs : only_logs not_resource authenticate.
Proof.
  unfold authenticate.
  apply only_logs_bind; [apply only_logs_record; reflexivity |].
  intros _.
  destruct (negb (truthy_string (email config))
            || negb (truthy_string (password config)));
    [apply only_logs_throw |].
  apply only_logs_try_catch.
  - apply only_logs_bind; [apply only_logs_authClient_post; reflexivity |].
    intros response.
    destruct (negb (truthy_opt_string (access_token (data response))));
      [apply only_logs_throw |].
    apply only_logs_bind; [apply only_logs_set_token; reflexivity |].
    intros _. apply only_logs_silent. reflexivity.
  - intros e. destruct (instanceof_AxiosError e); apply only_logs_throw.
Qed.

(** Every request [request] sends to the vendor is the request it was given:
    a retry repeats it unchanged. *)
Lemma response_error_interceptor_only_logs req retry error :
  only_logs (resource_among [req]) retry ->
  only_logs (resource_among [req]) (response_error_interceptor retry error).
Proof.
  intros Hretry. unfold response_error_interceptor.
  destruct (is_401 error); [| apply only_logs_throw].
  apply only_logs_bind; [apply only_logs_set_token; exact I |].
  intros _. apply only_logs_bind.
  { eapply only_logs_weaken; [| apply authenticate_only_logs].
    apply not_resource_among. }
  intros _. apply only_logs_bind; [apply only_logs_silent; reflexivity |].
  intros t. destruct (truthy_opt_string t); [exact Hretry | apply only_logs_throw].
Qed.

Lemma request_only_logs fuel req : only_logs (resource_among [req]) (request fuel req).
Proof.
  induction fuel as [| fuel IH]; simpl; [apply only_logs_pending |].
  apply only_logs_try_catch.
  - apply only_logs_bind.
    + unfold request_interceptor.
      apply only_logs_bind; [apply only_logs_silent; reflexivity |].
      intros t. apply only_logs_bind.
      * destruct (negb (truthy_opt_string t)); [| apply only_logs_ret].
        eapply only_logs_weaken; [| apply authenticate_only_logs].
        apply not_resource_among.
      * intros _. apply only_logs_bind; [apply only_logs_silent; reflexivity |].
        intros t'. apply only_logs_ret.
    + intros bearer. apply only_logs_dispatch. simpl. set_solver.
  - intros e. apply response_error_interceptor_only_logs, IH.
Qed.

Lemma only_logs_events_since {A} Q (m : Promise A) st :
  only_logs Q m -> Forall Q (events_since st (snd (m st))).
Proof.
  intros Hm. destruct (Hm st) as (evs & E & F).
  unfold events_since. rewrite E, drop_app_length. exact F.
Qed.

Lemma not_resource_filter evs :
  Forall not_resource evs -> filter is_NetResource evs = [].
Proof.
  induction 1 as [| e evs He _ IH]; [reflexivity |].
  rewrite filter_cons. unfold not_resource in He.
  destruct (decide (is_NetResource e)) as [D | D].
  - rewrite He in D. contradiction.
  - exact IH.
Qed.

(** *** State invariants *)

Lemma preserves_bind {A B} P (m : Promise A) (k : A -> Promise B) :
  preserves P m -> (forall a, preserves P (k a)) -> preserves P (bind m k).
Proof.
  intros Hm Hk st HP. unfold bind. specialize (Hm st HP).
  destruct (m st) as [[a | e |] st1]; simpl in *; auto.
  apply Hk, Hm.
Qed.

Lemma preserves_try_catch {A} P (m : Promise A) (h : Exn -> Promise A) :
  preserves P m -> (forall e, preserves P (h e)) -> preserves P (try_catch m h).
Proof.
  intros Hm Hh st HP. unfold try_catch. specialize (Hm st HP).
  destruct (m st) as [[a | e |] st1]; simpl in *; auto.
  apply Hh, Hm.
Qed.

Lemma preserves_same_client {A} (P : State World -> Prop) (m : Promise A) :
  (forall st st', client st' = client st -> P st -> P st') ->
  (forall st, client (snd (m st)) = client st) ->
  preserves P m.
Proof. intros HP Hm st H. eapply HP; [apply Hm | exact H]. Qed.

Lemma userId_from_config_new w evs :
  userId_from_config {| client := new_client; world := w; log := evs |}.
Proof. left. reflexivity. Qed.

Lemma userId_set_token t : preserves userId_from_config (set_token t).
Proof. intros st H. exact H. Qed.

Lemma userId_authenticate : preserves userId_from_config authenticate.
Proof.
  unfold authenticate.
  apply preserves_bind; [intros st H; exact H |]. intros _.
  destruct (negb (truthy_string (email config))
            || negb (truthy_string (password config)));
    [intros st H; exact H |].
  apply preserves_try_catch.
  - apply preserves_bind.
    + intros st H. unfold authClient_post.
      destruct (token_endpoint (world st) login_payload). exact H.
    + intros response.
      destruct (negb (truthy_opt_string (access_token (data response))));
        [intros st H; exact H |].
      apply preserves_bind; [apply userId_set_token |].
      intros _ st _. right. reflexivity.
  - intros e. destruct (instanceof_AxiosError e); intros st H; exact H.
Qed.

Lemma userId_request fuel req : preserves userId_from_config (request fuel req).
Proof.
  induction fuel as [| fuel IH]; simpl; [intros st H; exact H |].
  apply preserves_try_catch.
  - apply preserves_bind.
    + unfold request_interceptor.
      apply preserves_bind; [intros st H; exact H |]. intros t.
      apply preserves_bind.
      * destruct (negb (truthy_opt_string t));
          [apply userId_authenticate | intros st H; exact H].
      * intros _. apply preserves_bind; intros; intros st H; exact H.
    + intros bearer st H. unfold dispatch.
      destruct (vendor (world st) req bearer). exact H.
  - intros e. unfold response_error_interceptor.
    destruct (is_401 e); [| intros st H; exact H].
    apply preserves_bind; [apply userId_set_token |]. intros _.
    apply preserves_bind; [apply userId_authenticate |]. intros _.
    apply preserves_bind; [intros st H; exact H |]. intros t.
    destruct (truthy_opt_string t); [exact IH | intros st H; exact H].
Qed.

Lemma userId_getUsers fuel : preserves userId_from_config (getUsers fuel).
Proof.
  unfold getUsers, rethrow.
  apply preserves_try_catch.
  - apply preserves_bind; [intros st H; exact H |]. intros u.
    apply preserves_bind.
    + destruct (negb (truthy_opt_string u));
        [apply userId_authenticate | intros st H; exact H].
    + intros _. apply preserves_bind; [intros st H; exact H |]. intros u'.
      destruct (negb (truthy_opt_string u')); [intros st H; exact H |].
      apply preserves_bind; [apply userId_request |]. intros response.
      apply preserves_bind; intros; intros st H; exact H.
  - intros e. destruct (instanceof_AxiosError e); intros st H; exact H.
Qed.

(** A successful login leaves the configured user id in the client. *)
Lemma authenticate_sets_configured_userId (st st1 : State World) :
  authenticate st = (Returned tt, st1) ->
  userId (client st1) = Some (cfg_userId config).
Proof.
  unfold authenticate, bind, try_catch, record.
  destruct (negb (truthy_string (email config))
            || negb (truthy_string (password config))); [discriminate |].
  unfold authClient_post. simpl.
  destruct (token_endpoint (world st) login_payload) as [reply w].
  destruct (settle auth_message reply) as [response | e |]; simpl.
  - destruct (negb (truthy_opt_string (access_token (data response))));
      simpl; [discriminate |].
    intros [= <-]. reflexivity.
  - destruct (instanceof_AxiosError e); discriminate.
  - discriminate.
Qed.

Lemma userId_falsy_when_unconfigured (st : State World) :
  cfg_userId config = "" -> userId_from_config st ->
  truthy_opt_string (userId (client st)) = false.
Proof.
  intros Hcfg [-> | ->]; [reflexivity |]. rewrite Hcfg. reflexivity.
Qed.

(** With an empty configured user id, [getUsers] never returns: it throws
    what the login throws, or 'Not authenticated' after a granted login. *)
Lemma getUsers_empty_userId_outcome fuel (st : State World) :
  cfg_userId config = "" ->
  userId_from_config st ->
  getUsers fuel st
  = match authenticate st with
    | (Returned _, st1) => (Thrown NotAuthenticated, st1)
    | (Thrown e, st1) => (Thrown e, st1)
    | (Pending, st1) => (Pending, st1)
    end.
Proof.
  intros Hcfg Hinv.
  pose proof (userId_falsy_when_unconfigured st Hcfg Hinv) as Hfalsy.
  unfold getUsers, rethrow, try_catch.
  unfold bind at 1, get_userId at 1. simpl. rewrite Hfalsy. simpl.
  unfold bind at 1.
  destruct (authenticate st) as [[[] | e |] st1] eqn:Hauth.
  - unfold bind at 1, get_userId at 1. simpl.
    rewrite (authenticate_sets_configured_userId st st1 Hauth), Hcfg.
    reflexivity.
  - assert (He : instanceof_AxiosError e = false).
    { revert Hauth. unfold authenticate, bind, try_catch, record, throw.
      destruct (negb (truthy_string (email config))
                || negb (truthy_string (password config)));
        [intros [= <- _]; reflexivity |].
      unfold authClient_post. simpl.
      destruct (token_endpoint (world st) login_payload) as [reply w].
      destruct (settle auth_message reply) as [response | x |]; simpl.
      - destruct (negb (truthy_opt_string (access_token (data response))));
          simpl; [intros [= <- _]; reflexivity | discriminate].
      - destruct (instanceof_AxiosError x); intros [= <- _]; reflexivity.
      - discriminate. }
    rewrite He. reflexivity.
  - reflexivity.
Qed.

(** C10. With an empty configured user id, [getUsers] logs in (the client's
    user id is unset or the empty configured one, hence falsy); when that
    login succeeds the user id it sets is again the empty configured one, and
    [getUsers] throws 'Not authenticated' without having sent any request to
    the vendor. *)
Theorem getUsers_empty_userId_not_authenticated fuel (st st1 : State World) :
  cfg_userId config = "" ->
  userId_from_config st ->
  authenticate st = (Returned tt, st1) ->
  getUsers fuel st = (Thrown NotAuthenticated, st1)
  /\ userId (client st1) = Some ""
  /\ userId_from_config st1
  /\ filter is_NetResource (events_since st st1) = [].
Proof.
  intros Hcfg Hinv Hauth. split; [| split; [| split]].
  - rewrite (getUsers_empty_userId_outcome fuel st Hcfg Hinv), Hauth.
    reflexivity.
  - rewrite (authenticate_sets_configured_userId st st1 Hauth), Hcfg.
    reflexivity.
  - pose proof (userId_authenticate st Hinv) as H. rewrite Hauth in H. exact H.
  - apply not_resource_filter.
    pose proof (only_logs_events_since not_resource authenticate st
                  authenticate_only_logs) as H.
    rewrite Hauth in H. exact H.
Qed.

(** *** The first thing a computation logs *)

Lemma starts_with_events_since {A} e (m : Promise A) st :
  starts_with e m st -> exists rest, events_since st (snd (m st)) = e :: rest.
Proof.
  intros [rest E]. exists rest. unfold events_since.
  rewrite E. apply drop_app_length.
Qed.

Lemma starts_with_bind {A B} e (m : Promise A) (k : A -> Promise B) st :
  (forall a, only_logs (fun _ => True) (k a)) ->
  starts_with e m st -> starts_with e (bind m k) st.
Proof.
  intros Hk [rest E]. unfold starts_with, bind.
  destruct (m st) as [[a | x |] st1]; simpl in *.
  - destruct (Hk a st1) as (evs & E2 & _).
    exists (rest ++ evs). rewrite E2, E, <- app_assoc. reflexivity.
  - exists rest. exact E.
  - exists rest. exact E.
Qed.

Lemma starts_with_try_catch {A} e (m : Promise A) (h : Exn -> Promise A) st :
  (forall x, only_logs (fun _ => True) (h x)) ->
  starts_with e m st -> starts_with e (try_catch m h) st.
Proof.
  intros Hh [rest E]. unfold starts_with, try_catch.
  destruct (m st) as [[a | x |] st1]; simpl in *.
  - exists rest. exact E.
  - destruct (Hh x st1) as (evs & E2 & _).
    exists (rest ++ evs). rewrite E2, E, <- app_assoc. reflexivity.
  - exists rest. exact E.
Qed.

Lemma starts_with_rethrow {A} e what (m : Promise A) st :
  starts_with e m st -> starts_with e (rethrow what m) st.
Proof.
  apply starts_with_try_catch.
  intros x. destruct (instanceof_AxiosError x); apply only_logs_throw.
Qed.

Lemma only_logs_any {A} Q (m : Promise A) :
  only_logs Q m -> only_logs (fun _ => True) m.
Proof. apply only_logs_weaken. auto. Qed.

(** A client that holds a token sends the request first of all. *)
Lemma request_starts_with fuel req (st : State World) tok :
  token (client st) = Some tok -> tok ≠ "" ->
  starts_with (NetResource req (Some tok)) (request (S fuel) req) st.
Proof.
  intros Ht Hne. simpl. apply starts_with_try_catch.
  - intros x. eapply only_logs_any, response_error_interceptor_only_logs.
    apply request_only_logs.
  - exists []. unfold bind. rewrite (request_interceptor_held st tok Ht Hne).
    unfold dispatch. destruct (vendor (world st) req (Some tok)). reflexivity.
Qed.

(** *** Setting the temperature *)

Lemma level_in_range (level : Q) :
  (-100 <= level)%Q -> (level <= 100)%Q ->
  lt level (-100) || gt level 100 = false.
Proof.
  intros Hlo Hhi. apply orb_false_iff. split.
  - apply lt_false. exact Hlo.
  - unfold gt. apply lt_false. exact Hhi.
Qed.

Lemma level_out_of_range_spec (level : Q) :
  (level < -100)%Q \/ (100 < level)%Q ->
  lt level (-100) || gt level 100 = true.
Proof.
  intros [H | H]; apply orb_true_iff.
  - left. apply lt_spec. exact H.
  - right. unfold gt. apply lt_spec. exact H.
Qed.

Lemma setTempLevel_only_logs fuel uid level duration :
  only_logs
    (resource_among
       (level_request uid level ::
        if gt (default 0%Q duration) 0
        then [duration_request uid level (default 0%Q duration)] else []))
    (setTempLevel fuel uid level duration).
Proof.
  unfold setTempLevel. apply only_logs_rethrow.
  apply only_logs_bind.
  { eapply only_logs_weaken; [| apply request_only_logs].
    intros e. apply resource_among_mono.
    intros r Hr. apply list_elem_of_singleton in Hr as ->. left. }
  intros _. apply only_logs_bind; [| intros; apply only_logs_ret].
  destruct (gt (default 0%Q duration) 0); [| apply only_logs_ret].
  apply only_logs_bind; [| intros; apply only_logs_ret].
  eapply only_logs_weaken; [| apply request_only_logs].
  intros e. apply resource_among_mono.
  intros r Hr. apply list_elem_of_singleton in Hr as ->. right. left.
Qed.

Lemma setTempLevel_starts_with fuel uid level duration (st : State World) tok :
  token (client st) = Some tok -> tok ≠ "" ->
  starts_with (NetResource (level_request uid level) (Some tok))
    (setTempLevel (S fuel) uid level duration) st.
Proof.
  intros Ht Hne. unfold setTempLevel. apply starts_with_rethrow.
  apply starts_with_bind; [| apply request_starts_with; assumption].
  intros _. apply only_logs_bind; [| intros; apply only_logs_ret].
  destruct (gt (default 0%Q duration) 0); [| apply only_logs_ret].
  apply only_logs_bind; [| intros; apply only_logs_ret].
  eapply only_logs_any, request_only_logs.
Qed.

(** C3. [setTemperature] with a level below -100 or above 100 throws the
    validation error and leaves the state, log included, as it was.  With a
    level from -100 to 100: a client that holds a token sends the level-set
    request first of all; once the level-set request has succeeded, a
    duration of at most 0 (or none) ends the call with the acknowledgement in
    the state that request left, and a duration above 0 makes the call go on
    with the duration request and end with the acknowledgement once that has
    succeeded; the only requests ever sent to the vendor are the level-set
    request and, for a duration above 0 only, the duration request. *)
Theorem setTemperature_validates_then_sets
    fuel uid (level : Q) (duration : option Q) (st : State World) :
  let d := default 0%Q duration in
  ((level < -100)%Q \/ (100 < level)%Q ->
   setTemperature fuel uid level duration st = (Thrown ValidationError, st))
  /\
  ((-100 <= level)%Q /\ (level <= 100)%Q ->
   (forall tok, token (client st) = Some tok -> tok ≠ "" ->
      exists rest,
        events_since st (snd (setTemperature (S fuel) uid level duration st))
        = NetResource (level_request uid level) (Some tok) :: rest)
   /\ (forall r1 st1,
         request fuel (level_request uid level) st = (Returned r1, st1) ->
         ((d <= 0)%Q ->
          setTemperature fuel uid level duration st
          = (Returned temperature_updated, st1))
         /\ ((0 < d)%Q ->
             forall r2 st2,
               request fuel (duration_request uid level d) st1
               = (Returned r2, st2) ->
               setTemperature fuel uid level duration st
               = (Returned temperature_updated, st2)))
   /\ ((d <= 0)%Q ->
       Forall (resource_among [level_request uid level])
         (events_since st (snd (setTemperature fuel uid level duration st))))
   /\ ((0 < d)%Q ->
       Forall (resource_among [level_request uid level;
                               duration_request uid level d])
         (events_since st (snd (setTemperature fuel uid level duration st))))).
Proof.
  intros d. split.
  - intros Hout. unfold setTemperature.
    rewrite (level_out_of_range_spec level Hout). reflexivity.
  - intros [Hlo Hhi].
    assert (Hset : forall n, setTemperature n uid level duration
                             = setTempLevel n uid level (Some d)).
    { intros n. unfold setTemperature. fold d.
      rewrite (level_in_range level Hlo Hhi). reflexivity. }
    pose proof (setTempLevel_only_logs fuel uid level (Some d)) as Hlogs.
    simpl in Hlogs.
    split; [| split; [| split]].
    + intros tok Ht Hne. rewrite Hset.
      apply starts_with_events_since, setTempLevel_starts_with; assumption.
    + intros r1 st1 H1. rewrite Hset.
      unfold setTempLevel, rethrow, try_catch, client_put. simpl.
      fold (temperature_path uid). fold (level_request uid level).
      fold (duration_request uid level d).
      split.
      * intros Hd. apply lt_false in Hd. unfold gt. rewrite Hd.
        unfold bind. rewrite H1. reflexivity.
      * intros Hd r2 st2 H2. apply lt_spec in Hd. unfold gt. rewrite Hd.
        unfold bind. rewrite H1, H2. reflexivity.
    + intros Hd. rewrite Hset. apply lt_false in Hd.
      unfold gt in Hlogs. rewrite Hd in Hlogs.
      apply only_logs_events_since, Hlogs.
    + intros Hd. rewrite Hset. apply lt_spec in Hd.
      unfold gt in Hlogs. rewrite Hd in Hlogs.
      apply only_logs_events_since, Hlogs.
Qed.

(** *** Sleep data *)

(** When [endDate] is omitted and [startDate] is a date of the platform,
    [getSleepData] is the trends query up to the day after. *)
Lemma getSleepData_default_range fuel uid startDate t iso (st : State World) :
  Date_getTime startDate = Some t ->
  Date_toISOString (t + day_ms) = Some iso ->
  getSleepData fuel uid startDate None st
  = rethrow "Failed to get sleep data"
      (await response <- request fuel (trends_request uid startDate (before_T iso));
       ret (default [] (days (data response)))) st.
Proof.
  intros Ht Hiso. unfold getSleepData, next_day. simpl.
  rewrite Ht, Hiso. reflexivity.
Qed.

Lemma getSleepData_returned fuel uid startDate t iso (st st' : State World) resp :
  Date_getTime startDate = Some t ->
  Date_toISOString (t + day_ms) = Some iso ->
  request fuel (trends_request uid startDate (before_T iso)) st
  = (Returned resp, st') ->
  getSleepData fuel uid startDate None st
  = (Returned (default [] (days (data resp))), st').
Proof.
  intros Ht Hiso Hreq.
  rewrite (getSleepData_default_range _ _ _ _ _ _ Ht Hiso).
  unfold rethrow, try_catch, bind. rewrite Hreq. reflexivity.
Qed.

(** An empty [endDate] is falsy and counts as omitted. *)
Lemma getSleepData_empty_endDate fuel uid startDate (st : State World) :
  getSleepData fuel uid startDate (Some "") st
  = getSleepData fuel uid startDate None st.
Proof. reflexivity. Qed.

(** X28. A [startDate] the platform's [Date] cannot read, and no [endDate]:
    [toISOString] throws a [RangeError] before anything is sent, and the
    state is as it was. *)
Lemma getSleepData_unreadable_startDate fuel uid startDate (st : State World) :
  Date_getTime startDate = None ->
  getSleepData fuel uid startDate None st
  = (Thrown (RangeError "Invalid time value"), st).
Proof.
  intros H. unfold getSleepData, next_day, rethrow, try_catch, bind. simpl.
  rewrite H. reflexivity.
Qed.

(** C8. [getSleepData] without an [endDate], for a [startDate] the platform's
    [Date] can read: the query is a GET of the user's trends with [from] the
    start date, [to] the ISO date of the instant 24 hours after the start
    date, the fixed time zone America/Los_Angeles, [include-main] false and
    [include-all-sessions] true; no other request is ever sent to the vendor,
    and a client that holds a token sends this one first of all; when the
    query succeeds the result is the [days] list of the answer as it is, and
    the empty list when the answer has no [days]. *)
Theorem getSleepData_without_endDate
    fuel uid startDate t iso (st : State World) :
  Date_getTime startDate = Some t ->
  Date_toISOString (t + day_ms) = Some iso ->
  let to := before_T iso in
  let query := trends_request uid startDate to in
  (method query = GET
   /\ url query = "/users/" +:+ uid +:+ "/trends"
   /\ params query
      = [ ("tz", "America/Los_Angeles"); ("from", startDate); ("to", to);
          ("include-main", "false"); ("include-all-sessions", "true");
          ("model-version", "v2") ])
  /\ Forall (resource_among [query])
       (events_since st (snd (getSleepData fuel uid startDate None st)))
  /\ (forall tok, token (client st) = Some tok -> tok ≠ "" ->
        exists rest,
          events_since st (snd (getSleepData (S fuel) uid startDate None st))
          = NetResource query (Some tok) :: rest)
  /\ (forall resp st',
        request fuel query st = (Returned resp, st') ->
        exists result,
          getSleepData fuel uid startDate None st = (Returned result, st')
          /\ (forall l, days (data resp) = Some l -> result = l)
          /\ (days (data resp) = None -> result = [])).
Proof.
  intros Ht Hiso to query.
  split; [repeat split |]. split; [| split].
  - rewrite (getSleepData_default_range _ _ _ _ _ _ Ht Hiso).
    apply only_logs_events_since, only_logs_rethrow.
    apply only_logs_bind; [apply request_only_logs |].
    intros; apply only_logs_ret.
  - intros tok Htok Hne.
    rewrite (getSleepData_default_range _ _ _ _ _ _ Ht Hiso).
    apply starts_with_events_since, starts_with_rethrow.
    apply starts_with_bind; [intros; apply only_logs_ret |].
    apply request_starts_with; assumption.
  - intros resp st' Hreq. eexists. split.
    + eapply getSleepData_returned; eauto.
    + split; [intros l -> | intros ->]; reflexivity.
Qed.

(** C4. When the trends query for [date] succeeds and its answer has no day
    record ([days] empty or absent), [getSleepData] returns the empty list,
    and [getSleepScore], [getSleepStages] and both [getHrv] throw
    'No sleep data found for date ...', all in the state the query left. *)
Theorem no_day_records_not_found
    fuel uid date t iso (st st' : State World) resp :
  Date_getTime date = Some t ->
  Date_toISOString (t + day_ms) = Some iso ->
  request fuel (trends_request uid date (before_T iso)) st = (Returned resp, st') ->
  days (data resp) = None \/ days (data resp) = Some [] ->
  getSleepData fuel uid date None st = (Returned [], st')
  /\ getSleepScore fuel uid date st = (Thrown (NotFoundError date), st')
  /\ getHrv fuel uid date st = (Thrown (NotFoundError date), st')
  /\ client_getHrv fuel uid date st = (Thrown (NotFoundError date), st')
  /\ getSleepStages fuel uid date st = (Thrown (NotFoundError date), st').
Proof.
  intros Ht Hiso Hreq Hdays.
  assert (Hdata : getSleepData fuel uid date None st = (Returned [], st')).
  { rewrite (getSleepData_returned _ _ _ _ _ _ _ _ Ht Hiso Hreq).
    destruct Hdays as [-> | ->]; reflexivity. }
  split; [exact Hdata |].
  unfold getSleepScore, getHrv, client_getHrv, getSleepStages,
    rethrow, try_catch, bind.
  rewrite Hdata. repeat split; reflexivity.
Qed.

(** *** Temperature *)

(** X27. An answer to the temperature query without [currentState]: reading
    [level] of it throws a [TypeError], which the [catch] lets through as it
    is. *)
Lemma getTemperature_without_currentState fuel uid (st st' : State World) resp :
  request fuel {| method := GET; url := temperature_path uid;
                  params := []; body := NoBody |} st
  = (Returned resp, st') ->
  currentState (data resp) = None ->
  getTemperature fuel uid st
  = (Thrown (TypeError "Cannot read properties of undefined (reading 'level')"),
     st').
Proof.
  intros Hreq Hcs.
  unfold getTemperature, getCurrentTempData, rethrow, try_catch, bind,
    client_get.
  fold (temperature_path uid). rewrite Hreq, Hcs. reflexivity.
Qed.

(** C6. When the temperature query succeeds and the answer has a
    [currentState], [getTemperature] returns [current] as
    [currentState.level] and [target] as [currentLevel]; for a target above 0
    heating is true and cooling false, for a target below 0 heating is false
    and cooling true, for a target of 0 both are false. *)
Theorem getTemperature_heating_cooling
    fuel uid (st st' : State World) resp cs :
  request fuel {| method := GET; url := temperature_path uid;
                  params := []; body := NoBody |} st
  = (Returned resp, st') ->
  currentState (data resp) = Some cs ->
  exists r,
    getTemperature fuel uid st = (Returned r, st')
    /\ current r = state_level cs
    /\ target r = currentLevel (data resp)
    /\ (forall tgt, currentLevel (data resp) = Some tgt ->
          ((0 < tgt)%Q -> heating r = true /\ cooling r = false)
          /\ ((tgt < 0)%Q -> heating r = false /\ cooling r = true)
          /\ ((tgt == 0)%Q -> heating r = false /\ cooling r = false)).
Proof.
  intros Hreq Hcs. eexists. split; [| split; [| split]].
  - unfold getTemperature, getCurrentTempData, rethrow, try_catch, bind,
      client_get.
    fold (temperature_path uid). rewrite Hreq, Hcs. reflexivity.
  - reflexivity.
  - reflexivity.
  - intros tgt Htgt. simpl. rewrite Htgt. simpl. unfold gt.
    split; [| split]; intros Hsign; split.
    + apply lt_spec. exact Hsign.
    + apply lt_false. apply Qlt_le_weak. exact Hsign.
    + apply lt_false. apply Qlt_le_weak. exact Hsign.
    + apply lt_spec. exact Hsign.
    + apply lt_false. rewrite Hsign. apply Qle_refl.
    + apply lt_false. rewrite Hsign. apply Qle_refl.
Qed.

(** *** Sleep stages *)

Lemma stage_step_unusable m seg : usable seg = false -> stage_step m seg = m.
Proof.
  unfold usable, stage_step.
  destruct (stage seg) as [name |], (duration seg) as [d |]; simpl;
    try reflexivity.
  intros ->. reflexivity.
Qed.

Lemma stage_step_usable m seg :
  usable seg = true ->
  exists name d,
    stage seg = Some name /\ duration seg = Some d
    /\ name ≠ "" /\ ~ (d == 0)%Q
    /\ stage_step m seg = assign m (toLowerCase name) d.
Proof.
  unfold usable, stage_step.
  destruct (stage seg) as [name |], (duration seg) as [d |]; simpl;
    try discriminate; try (rewrite andb_false_r; discriminate).
  intros H. exists name, d. rewrite H.
  apply andb_true_iff in H as [Hn Hd].
  repeat split; try reflexivity.
  - intros ->. discriminate.
  - intros Hz. apply truthy_number_spec in Hz. congruence.
Qed.

Lemma lookup_assign m key value k :
  assign m key value !! k
  = if decide (key = k /\ key ≠ "__proto__") then Some value else m !! k.
Proof.
  unfold assign. destruct (String.eqb_spec key "__proto__") as [E | E].
  - destruct (decide _) as [[_ H] | _]; [contradiction | reflexivity].
  - rewrite lookup_insert.
    destruct (decide (key = k)) as [-> | N].
    + destruct (decide _) as [_ | H]; [reflexivity |]. exfalso. apply H. auto.
    + destruct (decide _) as [[H _] | _]; [contradiction | reflexivity].
Qed.

(** Every entry of the result was written for some usable segment, under
    the lower-cased name and with the duration of that segment. *)
Lemma stage_fold_sound segs : forall m k v,
  fold_left stage_step segs m !! k = Some v ->
  m !! k = Some v
  \/ exists seg name,
       seg ∈ segs /\ usable seg = true /\ stage seg = Some name
       /\ toLowerCase name = k /\ duration seg = Some v.
Proof.
  induction segs as [| a segs IH]; intros m k v H; simpl in H; [left; exact H |].
  destruct (IH _ _ _ H) as [Hm | (seg & name & Hin & Hu & Hs & Hk & Hd)].
  - destruct (usable a) eqn:Ua.
    + destruct (stage_step_usable m a Ua) as (name & d & Hs & Hd & _ & _ & E).
      rewrite E, lookup_assign in Hm.
      destruct (decide _) as [[Hk _] | _].
      * injection Hm as <-. right. exists a, name.
        repeat split; auto. apply elem_of_cons. left. reflexivity.
      * left. exact Hm.
    + rewrite (stage_step_unusable m a Ua) in Hm. left. exact Hm.
  - right. exists seg, name. repeat split; auto.
    apply elem_of_cons. right. exact Hin.
Qed.

(** Segments under other names leave an entry as it is. *)
Lemma stage_fold_untouched segs : forall m k,
  (forall seg name, seg ∈ segs -> stage seg = Some name -> toLowerCase name ≠ k) ->
  fold_left stage_step segs m !! k = m !! k.
Proof.
  induction segs as [| a segs IH]; intros m k H; simpl; [reflexivity |].
  rewrite IH.
  - destruct (usable a) eqn:Ua.
    + destruct (stage_step_usable m a Ua) as (name & d & Hs & Hd & _ & _ & E).
      rewrite E, lookup_assign.
      destruct (decide _) as [[Hk _] | _]; [| reflexivity].
      exfalso. eapply H; eauto. apply elem_of_cons. left. reflexivity.
    + rewrite (stage_step_unusable m a Ua). reflexivity.
  - intros seg name Hin. apply H. apply elem_of_cons. right. exact Hin.
Qed.

(** The last usable segment of a name decides the entry. *)
Lemma stage_fold_last before seg after m name d :
  stage seg = Some name -> duration seg = Some d ->
  name ≠ "" -> ~ (d == 0)%Q -> toLowerCase name ≠ "__proto__" ->
  (forall seg' name', seg' ∈ after -> stage seg' = Some name' ->
     toLowerCase name' ≠ toLowerCase name) ->
  fold_left stage_step (before ++ seg :: after) m !! toLowerCase name = Some d.
Proof.
  intros Hs Hd Hn Hz Hp Hafter.
  rewrite fold_left_app. simpl. rewrite stage_fold_untouched; [| exact Hafter].
  unfold stage_step. rewrite Hs, Hd.
  rewrite (truthy_string_true _ Hn).
  assert (Ht : truthy_number d = true).
  { destruct (truthy_number d) eqn:E; [reflexivity |].
    apply truthy_number_spec in E. contradiction. }
  rewrite Ht. simpl. rewrite lookup_assign.
  destruct (decide _) as [_ | H]; [reflexivity |]. exfalso. apply H. auto.
Qed.

(** A segment that is not usable might as well not be there. *)
Lemma stage_fold_skip before seg after m :
  usable seg = false ->
  fold_left stage_step (before ++ seg :: after) m
  = fold_left stage_step (before ++ after) m.
Proof.
  intros Hu. rewrite !fold_left_app. simpl.
  rewrite stage_step_unusable; [reflexivity | exact Hu].
Qed.

Lemma getSleepStages_returned fuel uid date (st st' : State World) dayData rest :
  getSleepData fuel uid date None st = (Returned (dayData :: rest), st') ->
  getSleepStages fuel uid date st
  = (Returned (stage_loop (default [] (stages dayData))), st').
Proof.
  intros H. unfold getSleepStages, rethrow, try_catch, bind.
  rewrite H. reflexivity.
Qed.

(** C5. [getSleepStages] on a non-empty list of day records returns a map
    built from the stage segments of the first record: every entry has the
    lower-cased name of a segment of the record as key and that segment's
    duration as value; a name no segment has, lower-cased, is not a key; a
    segment with a non-empty name and a non-zero duration that no later
    segment shares its lower-cased name with gives the entry of its
    lower-cased name; the segments DEEP 120, LIGHT 240 give exactly
    {deep: 120, light: 240}.  Lower-casing is the platform's [toLowerCase],
    of which only its values at DEEP and LIGHT are used, for the example. *)
Theorem getSleepStages_maps_segments
    fuel uid date (st st' : State World) dayData rest :
  getSleepData fuel uid date None st = (Returned (dayData :: rest), st') ->
  let segs := default [] (stages dayData) in
  exists stageMap : gmap string Q,
    getSleepStages fuel uid date st = (Returned stageMap, st')
    /\ (forall k v, stageMap !! k = Some v ->
          exists seg name,
            seg ∈ segs /\ stage seg = Some name
            /\ toLowerCase name = k /\ duration seg = Some v)
    /\ (forall k,
          (forall seg name, seg ∈ segs -> stage seg = Some name ->
             toLowerCase name ≠ k) ->
          stageMap !! k = None)
    /\ (forall before seg after name d,
          segs = before ++ seg :: after ->
          stage seg = Some name -> duration seg = Some d ->
          name ≠ "" -> ~ (d == 0)%Q -> toLowerCase name ≠ "__proto__" ->
          (forall seg' name', seg' ∈ after -> stage seg' = Some name' ->
             toLowerCase name' ≠ toLowerCase name) ->
          stageMap !! toLowerCase name = Some d)
    /\ (toLowerCase "DEEP" = "deep" -> toLowerCase "LIGHT" = "light" ->
        segs = [ {| stage := Some "DEEP"; duration := Some 120%Q |};
                 {| stage := Some "LIGHT"; duration := Some 240%Q |} ] ->
        stageMap = {[ "deep" := 120%Q; "light" := 240%Q ]}).
Proof.
  intros Hdata segs. exists (stage_loop segs).
  split; [eapply getSleepStages_returned; exact Hdata |].
  split; [| split; [| split]].
  - intros k v Hk. unfold stage_loop in Hk.
    destruct (stage_fold_sound _ _ _ _ Hk)
      as [He | (seg & name & Hin & _ & Hs & Hn & Hd)].
    + rewrite lookup_empty in He. discriminate.
    + exists seg, name. auto.
  - intros k Hk. unfold stage_loop.
    rewrite stage_fold_untouched; [apply lookup_empty | exact Hk].
  - intros before seg after name d -> Hs Hd Hn Hz Hp Hafter.
    unfold stage_loop. eapply stage_fold_last; eauto.
  - intros Hdeep Hlight ->. unfold stage_loop, stage_step. simpl.
    rewrite Hdeep, Hlight. vm_compute. reflexivity.
Qed.

(** C9. A stage segment whose name is missing or empty, or whose duration is
    missing or 0, leaves no trace in the result of [getSleepStages]: the
    result is the one for the same segments without it, no entry of a result
    is ever 0, and when no other segment shares its lower-cased name, that
    name is not a key. *)
Theorem getSleepStages_skips_falsy_segments
    fuel uid date (st st' : State World) dayData rest before seg after :
  getSleepData fuel uid date None st = (Returned (dayData :: rest), st') ->
  stages dayData = Some (before ++ seg :: after) ->
  (stage seg = None \/ stage seg = Some ""
   \/ duration seg = None \/ exists d, duration seg = Some d /\ (d == 0)%Q) ->
  exists stageMap : gmap string Q,
    getSleepStages fuel uid date st = (Returned stageMap, st')
    /\ stageMap = stage_loop (before ++ after)
    /\ (forall k v, stageMap !! k = Some v -> ~ (v == 0)%Q)
    /\ (forall name,
          stage seg = Some name ->
          (forall seg' name', seg' ∈ before ++ after -> stage seg' = Some name' ->
             toLowerCase name' ≠ toLowerCase name) ->
          stageMap !! toLowerCase name = None).
Proof.
  intros Hdata Hstages Hfalsy.
  assert (Hu : usable seg = false).
  { unfold usable.
    destruct Hfalsy as [-> | [-> | [-> | (d & -> & Hd)]]]; try reflexivity.
    - apply andb_false_r.
    - simpl. apply truthy_number_spec in Hd. rewrite Hd. apply andb_false_r. }
  exists (stage_loop (before ++ after)).
  split; [| split; [reflexivity | split]].
  - rewrite (getSleepStages_returned _ _ _ _ _ _ _ Hdata), Hstages. simpl.
    unfold stage_loop. rewrite (stage_fold_skip _ _ _ _ Hu). reflexivity.
  - intros k v Hk Hz. unfold stage_loop in Hk.
    destruct (stage_fold_sound _ _ _ _ Hk)
      as [He | (s & name & _ & Hus & _ & _ & Hd)].
    + rewrite lookup_empty in He. discriminate.
    + unfold usable in Hus. rewrite Hd in Hus. simpl in Hus.
      apply truthy_number_spec in Hz. rewrite Hz in Hus.
      rewrite andb_false_r in Hus. discriminate.
  - intros name Hs Hother. unfold stage_loop.
    rewrite stage_fold_untouched; [apply lookup_empty | exact Hother].
Qed.

(** ** More facts about the client *)

(** *** How [authenticate] ends *)

Lemma authenticate_thrown_inv (st st' : State World) e :
  authenticate st = (Thrown e, st') ->
  (e = ConfigurationError \/ AuthenticationError e)
  /\ client st' = client st.
Proof.
  unfold authenticate, bind, try_catch, record, throw.
  destruct (negb (truthy_string (email config))
            || negb (truthy_string (password config))).
  { intros [= <- <-]. split; [left |]; reflexivity. }
  unfold authClient_post. simpl.
  destruct (token_endpoint (world st) login_payload) as [reply w].
  destruct (settle auth_message reply) as [response | x |]; simpl.
  - destruct (negb (truthy_opt_string (access_token (data response)))); simpl;
      [| discriminate].
    intros [= <- <-]. split; [right; left |]; reflexivity.
  - destruct (instanceof_AxiosError x); intros [= <- <-].
    + split; [right; right; eexists |]; reflexivity.
    + split; [right; left |]; reflexivity.
  - discriminate.
Qed.

(** X1. Whatever [authenticate] throws is the missing-credentials error or
    an error whose message is 'Failed to authenticate with Eight Sleep',
    alone or followed by a detail; it is never an [AxiosError], and a failed
    [authenticate] leaves the token and the user id of the client as they
    were. *)
Theorem authenticate_fails_cleanly (st st' : State World) e :
  authenticate st = (Thrown e, st') ->
  (e = ConfigurationError \/ AuthenticationError e)
  /\ instanceof_AxiosError e = false
  /\ token (client st') = token (client st)
  /\ userId (client st') = userId (client st).
Proof.
  intros H. destruct (authenticate_thrown_inv st st' e H) as [He Hc].
  rewrite Hc. repeat split; auto.
  destruct He as [-> | [-> | [detail ->]]]; reflexivity.
Qed.

(** X2. One call of [authenticate] asks the token endpoint at most once, and
    what it sends there is the configured client id, client secret, e-mail
    (as [username]) and password with the grant type [password]: either it
    stops at the missing credentials before any request, or it sends that one
    login request and fails, or it sends that one login request and stores
    the non-empty token it was granted. *)
Theorem authenticate_at_most_one_login (st : State World) :
  let r := authenticate st in
  let evs := events_since st (snd r) in
  let login := NetLogin {| client_id := clientId config;
                           client_secret := clientSecret config;
                           grant_type := "password";
                           username := email config;
                           login_password := password config |} in
  (evs = [CallAuthenticate] /\ fst r = Thrown ConfigurationError)
  \/ (evs = [CallAuthenticate; login] /\ exists e, fst r = Thrown e)
  \/ (exists t,
        evs = [CallAuthenticate; login; TokenWrite (Some t)]
        /\ fst r = Returned tt
        /\ token (client (snd r)) = Some t
        /\ t ≠ "").
Proof.
  cbv zeta.
  unfold events_since, authenticate, bind, try_catch, record, throw.
  destruct (negb (truthy_string (email config))
            || negb (truthy_string (password config))).
  { left. simpl. rewrite drop_app_length. auto. }
  unfold authClient_post. simpl.
  destruct (token_endpoint (world st) login_payload) as [reply w].
  destruct (settle auth_message reply) as [response | x |] eqn:Hs; simpl.
  - destruct (access_token (data response)) as [t |] eqn:Ht; simpl.
    + destruct (truthy_string t) eqn:Tt; simpl.
      * right. right. exists t. unfold set_token, set_userId. simpl.
        rewrite <- !app_assoc, drop_app_length.
        repeat split; auto. intros ->. discriminate.
      * right. left. rewrite <- !app_assoc, drop_app_length.
        split; [reflexivity | eauto].
    + right. left. rewrite <- !app_assoc, drop_app_length.
      split; [reflexivity | eauto].
  - right. left.
    destruct (instanceof_AxiosError x); simpl;
      rewrite <- !app_assoc, drop_app_length; split; try reflexivity; eauto.
  - destruct reply as [[s a] | msg]; simpl in Hs;
      [destruct (validateStatus s) |]; discriminate.
Qed.

(** X3. A login that the token endpoint rejects, or that does not get
    through: the error carries the message of the endpoint's answer when that
    is not empty, the status message of the transport otherwise, and the
    transport's own message when there was no answer; nothing is stored. *)
Theorem authenticate_rejected_login (st : State World) reply w' :
  has_credentials ->
  token_endpoint (world st) login_payload = (reply, w') ->
  let st1 := after st (client st) w' [CallAuthenticate; NetLogin login_payload] in
  (forall s a,
     reply = Responded {| status := s; data := a |} ->
     validateStatus s = false ->
     authenticate st
     = (Thrown (Error (auth_failed +:+ ": "
                       +:+ or_string (auth_message a) (status_message s))),
        st1))
  /\ (forall msg,
        reply = NoResponse msg ->
        authenticate st = (Thrown (Error (auth_failed +:+ ": " +:+ msg)), st1)).
Proof.
  intros [He Hp] Hreply st1. split.
  - intros s a -> Hs.
    unfold authenticate, bind, try_catch, record, authClient_post. simpl.
    rewrite (truthy_string_true _ He), (truthy_string_true _ Hp). simpl.
    rewrite Hreply. simpl. rewrite Hs. simpl.
    unfold st1, after. rewrite <- !app_assoc. reflexivity.
  - intros msg ->.
    unfold authenticate, bind, try_catch, record, authClient_post. simpl.
    rewrite (truthy_string_true _ He), (truthy_string_true _ Hp). simpl.
    rewrite Hreply. simpl.
    unfold st1, after. rewrite <- !app_assoc. reflexivity.
Qed.

(** X4. A login answered with a 2xx status but without a token (or with an
    empty one) fails with the bare message 'Failed to authenticate with Eight
    Sleep': the 'Invalid authentication response' error raised inside is
    replaced on its way out, and no token is stored. *)
Theorem authenticate_without_token (st : State World) s a w' :
  has_credentials ->
  token_endpoint (world st) login_payload
  = (Responded {| status := s; data := a |}, w') ->
  validateStatus s = true ->
  access_token a = None \/ access_token a = Some "" ->
  authenticate st
  = (Thrown (Error auth_failed),
     after st (client st) w' [CallAuthenticate; NetLogin login_payload]).
Proof.
  intros [He Hp] Hreply Hs Ha.
  unfold authenticate, bind, try_catch, record, authClient_post. simpl.
  rewrite (truthy_string_true _ He), (truthy_string_true _ Hp). simpl.
  rewrite Hreply. simpl. rewrite Hs. simpl.
  unfold after. destruct Ha as [-> | ->]; simpl;
    rewrite <- !app_assoc; reflexivity.
Qed.

(** *** How a request ends *)

(** A rejection other than a 401 leaves through the response interceptor as
    it came. *)
Lemma request_rejected fuel req (st st0 : State World) bearer reply w e :
  request_interceptor st = (Returned bearer, st0) ->
  vendor (world st0) req bearer = (reply, w) ->
  settle message reply = Thrown e ->
  is_401 e = false ->
  request (S fuel) req st
  = (Thrown e, after st0 (client st0) w [NetResource req bearer]).
Proof.
  intros Hi Hv Hs H401. simpl. unfold try_catch, bind. rewrite Hi.
  unfold dispatch. rewrite Hv, Hs.
  unfold response_error_interceptor. rewrite H401. reflexivity.
Qed.

Lemma is_401_status s m : s ≠ 401%Z ->
  is_401 (AxiosError (status_message s)
            (Some {| err_status := s; err_data_message := m |})) = false.
Proof. intros Hs. simpl. apply Z.eqb_neq. exact Hs. Qed.

Lemma settle_status_rejected (s : Z) (d : Data) :
  (s < 200 \/ 300 <= s)%Z ->
  settle message (Responded {| status := s; data := d |})
  = Thrown (AxiosError (status_message s)
              (Some {| err_status := s; err_data_message := message d |})).
Proof.
  intros Hs. simpl. replace (validateStatus s) with false; [reflexivity |].
  symmetry. unfold validateStatus. apply andb_false_iff.
  destruct Hs as [Hs | Hs]; [left; apply Z.leb_gt | right; apply Z.ltb_ge];
    exact Hs.
Qed.

(** X5. A client without a token logs in before its first request and not
    again before the next one: two successful requests in a row cost one
    login, and both carry the token that login was granted. *)
Theorem one_login_serves_later_requests
    fuel req1 req2 (st : State World) s a t w1 resp1 w2 resp2 w3 :
  truthy_opt_string (token (client st)) = false ->
  has_credentials ->
  token_endpoint (world st) login_payload
  = (Responded {| status := s; data := a |}, w1) ->
  validateStatus s = true ->
  access_token a = Some t -> t ≠ "" ->
  vendor w1 req1 (Some t) = (Responded resp1, w2) ->
  validateStatus (status resp1) = true ->
  vendor w2 req2 (Some t) = (Responded resp2, w3) ->
  validateStatus (status resp2) = true ->
  (run request (S fuel) req1; request (S fuel) req2) st
  = (Returned resp2,
     after st {| token := Some t; userId := Some (cfg_userId config) |} w3
       [CallAuthenticate; NetLogin login_payload; TokenWrite (Some t);
        NetResource req1 (Some t); NetResource req2 (Some t)]).
Proof.
  intros Hf Hc Ha Hs Hat Hne Hv1 Hs1 Hv2 Hs2.
  unfold bind.
  erewrite (request_fulfilled fuel req1 st);
    [ | eapply request_interceptor_lazy; eauto | exact Hv1 | exact Hs1 ].
  erewrite request_fulfilled;
    [ | apply request_interceptor_held; [reflexivity | exact Hne]
      | exact Hv2 | exact Hs2 ].
  unfold after. simpl. rewrite <- !app_assoc. reflexivity.
Qed.

(** X6. An answer with a status outside 200..299 other than 401 is not
    retried and starts no login: the caller gets the [AxiosError] with that
    status and the message of the answer, after the one attempt, and the
    client keeps its token. *)
Theorem request_other_status_propagates
    fuel req (st : State World) tok s d w :
  token (client st) = Some tok -> tok ≠ "" ->
  vendor (world st) req (Some tok)
  = (Responded {| status := s; data := d |}, w) ->
  (s < 200 \/ 300 <= s)%Z -> s ≠ 401%Z ->
  request (S fuel) req st
  = (Thrown (AxiosError (status_message s)
               (Some {| err_status := s; err_data_message := message d |})),
     after st (client st) w [NetResource req (Some tok)]).
Proof.
  intros Ht Hne Hv Hs H401.
  eapply request_rejected;
    [ apply request_interceptor_held; eassumption | exact Hv
      | apply settle_status_rejected; exact Hs
      | apply is_401_status; exact H401 ].
Qed.

(** X7. A request that gets no answer at all is not retried either: the
    caller gets the [AxiosError] of the transport, without a response. *)
Theorem request_transport_failure_propagates
    fuel req (st : State World) tok msg w :
  token (client st) = Some tok -> tok ≠ "" ->
  vendor (world st) req (Some tok) = (NoResponse msg, w) ->
  request (S fuel) req st
  = (Thrown (AxiosError msg None),
     after st (client st) w [NetResource req (Some tok)]).
Proof.
  intros Ht Hne Hv.
  eapply request_rejected;
    [ apply request_interceptor_held; eassumption | exact Hv
      | reflexivity | reflexivity ].
Qed.

(** X8. A 401 followed by a login that fails: the caller gets the error of
    the login, not the 401; the request is not sent again; and the client is
    left without a token, so that its next request starts with a login. *)
Theorem failed_relogin_leaves_client_without_token
    fuel req (st st2 : State World) tok d w1 e :
  token (client st) = Some tok -> tok ≠ "" ->
  vendor (world st) req (Some tok)
  = (Responded {| status := 401; data := d |}, w1) ->
  authenticate
    (after st {| token := None; userId := userId (client st) |} w1
       [NetResource req (Some tok); TokenWrite None])
  = (Thrown e, st2) ->
  request (S fuel) req st = (Thrown e, st2)
  /\ (e = ConfigurationError \/ AuthenticationError e)
  /\ token (client st2) = None
  /\ filter is_NetResource (events_since st st2) = [NetResource req (Some tok)].
Proof.
  intros Ht Hne Hv Hauth.
  destruct (authenticate_thrown_inv _ _ _ Hauth) as [He Hc].
  split; [| split; [exact He | split]].
  - simpl. unfold try_catch, bind at 1.
    rewrite (request_interceptor_held st tok Ht Hne).
    unfold dispatch. rewrite Hv. simpl.
    unfold response_error_interceptor. simpl.
    unfold bind at 1, set_token at 1. simpl. unfold bind at 1.
    unfold after in Hauth. rewrite <- app_assoc. simpl.
    rewrite Hauth. reflexivity.
  - rewrite Hc. reflexivity.
  - destruct (authenticate_only_logs
                (after st {| token := None; userId := userId (client st) |} w1
                   [NetResource req (Some tok); TokenWrite None]))
      as (evs & E & F).
    rewrite Hauth in E. simpl in E.
    unfold events_since. rewrite E, <- app_assoc, drop_app_length.
    rewrite filter_app, (not_resource_filter evs F). reflexivity.
Qed.

(** X9. Whatever happens to a request, and however often it is retried,
    nothing but that request is ever sent to the vendor on its behalf. *)
Theorem retry_repeats_the_request fuel req (st : State World) :
  Forall (resource_among [req]) (events_since st (snd (request fuel req st))).
Proof.
  apply only_logs_events_since, request_only_logs.
Qed.

(** X10. The user id of the client is unset or the configured one, and
    logging in, sending a request or calling [getUsers] keeps it so: no
    answer of a remote party ever decides it. *)
Theorem userId_only_from_config fuel req (st : State World) :
  userId_from_config st ->
  userId_from_config (snd (authenticate st))
  /\ userId_from_config (snd (request fuel req st))
  /\ userId_from_config (snd (getUsers fuel st)).
Proof.
  intros H. split; [| split].
  - apply userId_authenticate, H.
  - apply userId_request, H.
  - apply userId_getUsers, H.
Qed.

(** X11. As long as the vendor answers the request with a 401 and the token
    endpoint grants a token, a request does not settle: with a budget of [n]
    nested calls it has made [n] attempts and [n] logins and is still
    pending. *)
Theorem request_pending_while_unauthorized req :
  has_credentials ->
  (forall w bearer, exists d w',
     vendor w req bearer = (Responded {| status := 401; data := d |}, w')) ->
  (forall w, exists s a t w',
     token_endpoint w login_payload
     = (Responded {| status := s; data := a |}, w')
     /\ validateStatus s = true /\ access_token a = Some t /\ t ≠ "") ->
  forall fuel (st : State World) tok,
    token (client st) = Some tok -> tok ≠ "" ->
    fst (request fuel req st) = Pending
    /\ length (filter is_NetResource
                 (events_since st (snd (request fuel req st)))) = fuel
    /\ length (filter is_CallAuthenticate
                 (events_since st (snd (request fuel req st)))) = fuel.
Proof.
  intros Hc Hvendor Hgrant.
  induction fuel as [| fuel IH]; intros st tok Ht Hne.
  - simpl. unfold events_since. rewrite drop_all. auto.
  - destruct (Hvendor (world st) (Some tok)) as (d & w1 & Hv).
    destruct (Hgrant w1) as (s & a & t & w2 & Ha & Hs & Hat & Hnt).
    rewrite (request_reenters fuel req st st tok d w1 s a t w2
               (request_interceptor_held st tok Ht Hne) Hv Hc Ha Hs Hat Hnt).
    match goal with |- context [request fuel req ?x] => set (st1 := x) end.
    destruct (IH st1 t eq_refl Hnt) as (Hp & Hr & Hl).
    split; [exact Hp |].
    destruct (request_only_logs fuel req st1) as (evs & E & _).
    unfold events_since in *. rewrite E in *.
    rewrite drop_app_length in Hr, Hl.
    unfold st1, after in *. simpl in *.
    rewrite <- !app_assoc, drop_app_length. simpl.
    rewrite !filter_cons. simpl.
    repeat (destruct (decide _) as [D | D];
            try (exfalso; simpl in D; tauto); clear D).
    simpl. rewrite Hr, Hl. split; reflexivity.
Qed.

(** *** What the facade throws *)

Lemma rethrow_not_axios {A} what (m : Promise A) (st : State World) :
  rejected_with_AxiosError (fst (rethrow what m st)) = false.
Proof.
  unfold rethrow, try_catch. destruct (m st) as [[a | e |] st1]; simpl; auto.
  destruct (instanceof_AxiosError e) eqn:E; simpl; auto.
Qed.

Lemma getSleepData_thrown_not_axios
    fuel uid startDate endDate (st st' : State World) e :
  getSleepData fuel uid startDate endDate st = (Thrown e, st') ->
  instanceof_AxiosError e = false.
Proof.
  intros H.
  pose proof (rethrow_not_axios "Failed to get sleep data"
    (await to <- (if truthy_opt_string endDate
                  then ret (default "" endDate)
                  else next_day startDate);
     await response <-
       client_get fuel ("/users/" +:+ uid +:+ "/trends")
         (trends_params startDate to);
     ret (default [] (days (data response)))) st) as Hn.
  fold (getSleepData fuel uid startDate endDate) in Hn.
  rewrite H in Hn. exact Hn.
Qed.

(** X12. None of the facade methods that end in a [catch] lets an
    [AxiosError] out, and neither do [setTemperature] and the [getHrv] of the
    tool layer, which sit on top of them: what the caller can catch from them
    is a plain error. *)
Theorem facade_throws_no_AxiosError fuel uid date level duration endDate
    (st : State World) :
  rejected_with_AxiosError (fst (getUsers fuel st)) = false
  /\ rejected_with_AxiosError (fst (getCurrentTempData fuel uid st)) = false
  /\ rejected_with_AxiosError (fst (setTempLevel fuel uid level duration st)) = false
  /\ rejected_with_AxiosError (fst (setTemperature fuel uid level duration st)) = false
  /\ rejected_with_AxiosError (fst (getSleepData fuel uid date endDate st)) = false
  /\ rejected_with_AxiosError (fst (getSleepScore fuel uid date st)) = false
  /\ rejected_with_AxiosError (fst (getSleepStages fuel uid date st)) = false
  /\ rejected_with_AxiosError (fst (client_getHrv fuel uid date st)) = false
  /\ rejected_with_AxiosError (fst (getHrv fuel uid date st)) = false.
Proof.
  repeat split; try apply rethrow_not_axios.
  - unfold setTemperature.
    destruct (lt level (-100) || gt level 100); [reflexivity |].
    apply rethrow_not_axios.
  - unfold getHrv, bind.
    destruct (getSleepData fuel uid date None st) as [[l | e |] st1] eqn:H;
      simpl; auto.
    + destruct l; reflexivity.
    + eapply getSleepData_thrown_not_axios; eauto.
Qed.

(** X13. The delete methods have no [catch]: for a client that holds a
    token, a DELETE answered with a 2xx status returns nothing, after that
    one request, and a rejected one reaches the caller as the [AxiosError]
    itself, status and vendor message included, with no prefix put before
    it; this for [deleteAlarm] and for [deleteTemperatureSchedule] alike. *)
Theorem delete_methods_throw_AxiosError
    fuel uid ident (st : State World) tok :
  token (client st) = Some tok -> tok ≠ "" ->
  (forall resp w,
     vendor (world st) (delete_alarm_request uid ident) (Some tok)
     = (Responded resp, w) ->
     validateStatus (status resp) = true ->
     deleteAlarm (S fuel) uid ident st
     = (Returned tt,
        after st (client st) w
          [NetResource (delete_alarm_request uid ident) (Some tok)]))
  /\ (forall s d w,
        vendor (world st) (delete_alarm_request uid ident) (Some tok)
        = (Responded {| status := s; data := d |}, w) ->
        (s < 200 \/ 300 <= s)%Z -> s ≠ 401%Z ->
        deleteAlarm (S fuel) uid ident st
        = (Thrown (AxiosError (status_message s)
                     (Some {| err_status := s;
                              err_data_message := message d |})),
           after st (client st) w
             [NetResource (delete_alarm_request uid ident) (Some tok)]))
  /\ (forall resp w,
        vendor (world st) (delete_schedule_request uid ident) (Some tok)
        = (Responded resp, w) ->
        validateStatus (status resp) = true ->
        deleteTemperatureSchedule (S fuel) uid ident st
        = (Returned tt,
           after st (client st) w
             [NetResource (delete_schedule_request uid ident) (Some tok)]))
  /\ (forall s d w,
        vendor (world st) (delete_schedule_request uid ident) (Some tok)
        = (Responded {| status := s; data := d |}, w) ->
        (s < 200 \/ 300 <= s)%Z -> s ≠ 401%Z ->
        deleteTemperatureSchedule (S fuel) uid ident st
        = (Thrown (AxiosError (status_message s)
                     (Some {| err_status := s;
                              err_data_message := message d |})),
           after st (client st) w
             [NetResource (delete_schedule_request uid ident) (Some tok)])).
Proof.
  intros Ht Hne. split; [| split; [| split]].
  - intros resp w Hv Hs. unfold deleteAlarm, client_delete, bind.
    fold (delete_alarm_request uid ident).
    erewrite request_fulfilled;
      [ reflexivity | apply request_interceptor_held; eassumption
        | exact Hv | exact Hs ].
  - intros s d w Hv Hs H401. unfold deleteAlarm, client_delete, bind.
    fold (delete_alarm_request uid ident).
    erewrite request_rejected;
      [ reflexivity | apply request_interceptor_held; eassumption | exact Hv
        | apply settle_status_rejected; exact Hs
        | apply is_401_status; exact H401 ].
  - intros resp w Hv Hs.
    unfold deleteTemperatureSchedule, client_delete, bind.
    fold (delete_schedule_request uid ident).
    erewrite request_fulfilled;
      [ reflexivity | apply request_interceptor_held; eassumption
        | exact Hv | exact Hs ].
  - intros s d w Hv Hs H401.
    unfold deleteTemperatureSchedule, client_delete, bind.
    fold (delete_schedule_request uid ident).
    erewrite request_rejected;
      [ reflexivity | apply request_interceptor_held; eassumption | exact Hv
        | apply settle_status_rejected; exact Hs
        | apply is_401_status; exact H401 ].
Qed.

(** X14. A rejected temperature query reaches the caller of
    [getTemperature] as a plain error 'Failed to get temperature data: ...',
    where the detail is the [message] of the vendor's answer when that is not
    empty and the status message of the transport otherwise. *)
Theorem getTemperature_error_message
    fuel uid (st : State World) tok s d w :
  token (client st) = Some tok -> tok ≠ "" ->
  vendor (world st) (temperature_request uid) (Some tok)
  = (Responded {| status := s; data := d |}, w) ->
  (s < 200 \/ 300 <= s)%Z -> s ≠ 401%Z ->
  getTemperature (S fuel) uid st
  = (Thrown (Error ("Failed to get temperature data: "
                    +:+ or_string (message d) (status_message s))),
     after st (client st) w [NetResource (temperature_request uid) (Some tok)]).
Proof.
  intros Ht Hne Hv Hs H401.
  unfold getTemperature, getCurrentTempData, rethrow, try_catch, client_get.
  unfold bind at 1. fold (temperature_path uid). fold (temperature_request uid).
  erewrite request_rejected;
    [ | apply request_interceptor_held; eassumption | exact Hv
      | apply settle_status_rejected; exact Hs
      | apply is_401_status; exact H401 ].
  reflexivity.
Qed.

(** X15. An answer to the temperature query that has a [currentState] but no
    [currentLevel]: [getTemperature] succeeds with an undefined target and
    with heating and cooling both false. *)
Theorem getTemperature_without_currentLevel
    fuel uid (st st' : State World) resp cs :
  request fuel (temperature_request uid) st = (Returned resp, st') ->
  currentState (data resp) = Some cs ->
  currentLevel (data resp) = None ->
  getTemperature fuel uid st
  = (Returned {| current := state_level cs; target := None;
                 heating := false; cooling := false |}, st').
Proof.
  intros Hreq Hcs Hl.
  unfold getTemperature, getCurrentTempData, rethrow, try_catch, bind,
    client_get.
  fold (temperature_path uid). fold (temperature_request uid).
  rewrite Hreq, Hcs, Hl. reflexivity.
Qed.

(** *** Users *)

Lemma bind_returned {A B} (m : Promise A) (k : A -> Promise B)
    (st st1 : State World) a :
  m st = (Returned a, st1) -> bind m k st = k a st1.
Proof. intros H. unfold bind. rewrite H. reflexivity. Qed.

Lemma bind_thrown {A B} (m : Promise A) (k : A -> Promise B)
    (st st1 : State World) e :
  m st = (Thrown e, st1) -> bind m k st = (Thrown e, st1).
Proof. intros H. unfold bind. rewrite H. reflexivity. Qed.


(** X16. [getUsers] of a new client with a configured user id: the login
    [getUsers] starts itself is the only one (the request interceptor finds
    the token it stored), the request goes out with that token, and the
    result has one key, the configured user id, with the answer of the vendor
    under it. *)
Theorem getUsers_logs_in_once
    fuel (st : State World) s a t w1 resp w2 :
  cfg_userId config ≠ "" ->
  truthy_opt_string (userId (client st)) = false ->
  has_credentials ->
  token_endpoint (world st) login_payload
  = (Responded {| status := s; data := a |}, w1) ->
  validateStatus s = true ->
  access_token a = Some t -> t ≠ "" ->
  vendor w1 users_me_request (Some t) = (Responded resp, w2) ->
  validateStatus (status resp) = true ->
  getUsers (S fuel) st
  = (Returned {[ cfg_userId config := data resp ]},
     after st {| token := Some t; userId := Some (cfg_userId config) |} w2
       [CallAuthenticate; NetLogin login_payload; TokenWrite (Some t);
        NetResource users_me_request (Some t)]).
Proof.
  intros Hu Hf Hc Ha Hs Hat Hne Hv Hsv.
  unfold getUsers, rethrow, try_catch.
  erewrite bind_returned by reflexivity.
  rewrite Hf. cbn [negb].
  erewrite bind_returned by (eapply authenticate_granted; eauto).
  erewrite bind_returned by reflexivity.
  cbn [after client userId truthy_opt_string].
  rewrite (truthy_string_true _ Hu). cbn [negb].
  unfold client_get. fold users_me_request.
  erewrite bind_returned
    by (eapply request_fulfilled;
        [ apply request_interceptor_held; [reflexivity | exact Hne]
        | exact Hv | exact Hsv ]).
  erewrite bind_returned by reflexivity.
  unfold ret, after. simpl. rewrite <- !app_assoc. reflexivity.
Qed.

(** *** Setting the temperature, continued *)

(** X17. The validation of the level belongs to [setTemperature] of the tool
    layer alone: [setTempLevel] of the client sends the level-set request for
    any level whatsoever and acknowledges once the vendor accepts it. *)
Theorem setTempLevel_sends_any_level
    fuel uid (level : Q) (st : State World) tok resp w :
  token (client st) = Some tok -> tok ≠ "" ->
  vendor (world st) (level_request uid level) (Some tok) = (Responded resp, w) ->
  validateStatus (status resp) = true ->
  setTempLevel (S fuel) uid level None st
  = (Returned temperature_updated,
     after st (client st) w [NetResource (level_request uid level) (Some tok)]).
Proof.
  intros Ht Hne Hv Hs.
  unfold setTempLevel, rethrow, try_catch, client_put. simpl default.
  fold (temperature_path uid). fold (level_request uid level).
  unfold bind at 1. unfold bind at 1.
  erewrite request_fulfilled;
    [ | apply request_interceptor_held; eassumption | exact Hv | exact Hs ].
  reflexivity.
Qed.

(** X18. [setTemperature] with a duration above 0 whose level-set request is
    accepted and whose duration request is rejected: the call fails with
    'Failed to set temperature: ...', and the level-set request has been sent
    and accepted all the same; nothing undoes it. *)
Theorem setTemperature_fails_after_level_is_set
    fuel uid (level d : Q) (st : State World) tok resp w1 s data2 w2 :
  (-100 <= level)%Q -> (level <= 100)%Q -> (0 < d)%Q ->
  token (client st) = Some tok -> tok ≠ "" ->
  vendor (world st) (level_request uid level) (Some tok) = (Responded resp, w1) ->
  validateStatus (status resp) = true ->
  vendor w1 (duration_request uid level d) (Some tok)
  = (Responded {| status := s; data := data2 |}, w2) ->
  (s < 200 \/ 300 <= s)%Z -> s ≠ 401%Z ->
  setTemperature (S fuel) uid level (Some d) st
  = (Thrown (Error ("Failed to set temperature: "
                    +:+ or_string (message data2) (status_message s))),
     after st (client st) w2
       [NetResource (level_request uid level) (Some tok);
        NetResource (duration_request uid level d) (Some tok)]).
Proof.
  intros Hlo Hhi Hd Ht Hne Hv1 Hs1 Hv2 Hs2 H401.
  unfold setTemperature. simpl default.
  rewrite (level_in_range level Hlo Hhi).
  unfold setTempLevel, rethrow, try_catch, client_put. simpl default.
  fold (temperature_path uid). fold (level_request uid level).
  fold (duration_request uid level d).
  apply lt_spec in Hd. unfold gt. rewrite Hd.
  erewrite bind_returned
    by (eapply request_fulfilled;
        [ apply request_interceptor_held; eassumption
        | exact Hv1 | exact Hs1 ]).
  erewrite bind_thrown
    by (eapply bind_thrown, request_rejected;
        [ apply request_interceptor_held; [exact Ht | exact Hne]
        | exact Hv2
        | apply settle_status_rejected; exact Hs2
        | apply is_401_status; exact H401 ]).
  unfold after. simpl. rewrite <- !app_assoc. reflexivity.
Qed.

(** *** Sleep data, continued *)

(** X19. With an [endDate] that is not empty, [getSleepData] asks for the
    range from [startDate] to that [endDate] as given: the platform's [Date]
    is not consulted, so this holds for a [startDate] it could not read as
    well; nothing else is sent, and on success the result is the [days] of
    the answer, or the empty list when there are none. *)
Theorem getSleepData_with_endDate
    fuel uid startDate endDate (st : State World) :
  endDate ≠ "" ->
  let query := trends_request uid startDate endDate in
  Forall (resource_among [query])
    (events_since st (snd (getSleepData fuel uid startDate (Some endDate) st)))
  /\ (forall resp st',
        request fuel query st = (Returned resp, st') ->
        getSleepData fuel uid startDate (Some endDate) st
        = (Returned (default [] (days (data resp))), st')).
Proof.
  intros Hne query.
  assert (E : forall st0,
    getSleepData fuel uid startDate (Some endDate) st0
    = rethrow "Failed to get sleep data"
        (await response <- request fuel query;
         ret (default [] (days (data response)))) st0).
  { intros st0. unfold getSleepData. simpl.
    rewrite (truthy_string_true _ Hne). reflexivity. }
  split.
  - rewrite E. apply only_logs_events_since, only_logs_rethrow.
    apply only_logs_bind; [apply request_only_logs |].
    intros; apply only_logs_ret.
  - intros resp st' Hreq. rewrite E.
    unfold rethrow, try_catch, bind. rewrite Hreq. reflexivity.
Qed.

(** X20. What [getSleepData] throws goes through [getSleepScore],
    [getSleepStages] and both [getHrv] unchanged: a failed trends query
    reaches their callers as 'Failed to get sleep data: ...', never under the
    prefix of the method that was called. *)
Theorem sleep_helpers_pass_errors_on
    fuel uid date (st st' : State World) e :
  getSleepData fuel uid date None st = (Thrown e, st') ->
  getSleepScore fuel uid date st = (Thrown e, st')
  /\ getSleepStages fuel uid date st = (Thrown e, st')
  /\ client_getHrv fuel uid date st = (Thrown e, st')
  /\ getHrv fuel uid date st = (Thrown e, st').
Proof.
  intros H. pose proof (getSleepData_thrown_not_axios _ _ _ _ _ _ _ H) as He.
  unfold getSleepScore, getSleepStages, client_getHrv, getHrv,
    rethrow, try_catch, bind.
  rewrite H, He. repeat split; reflexivity.
Qed.

(** X21. [getHrv] of the client is the [hrv] field of [getSleepScore]: the
    two end alike, in the same state, and when they return, the one returns
    the [hrv] of what the other returns. *)
Theorem client_getHrv_is_score_hrv fuel uid date (st : State World) :
  client_getHrv fuel uid date st
  = (map_outcome hrv (fst (getSleepScore fuel uid date st)),
     snd (getSleepScore fuel uid date st)).
Proof.
  unfold client_getHrv, getSleepScore, rethrow, try_catch, bind.
  destruct (getSleepData fuel uid date None st) as [[l | e |] st1] eqn:H.
  - destruct l; reflexivity.
  - rewrite (getSleepData_thrown_not_axios _ _ _ _ _ _ _ H). reflexivity.
  - reflexivity.
Qed.

(** X22. A first day record without [sleepQualityScore] is no error: the
    score keeps its total and its toss-and-turn count and has no [hrv] and no
    [breathing]; the HRV report of the tool layer has the date and three
    undefined values; only the first record of the list is looked at. *)
Theorem day_without_quality_scores
    fuel uid date (st st' : State World) dayData rest :
  getSleepData fuel uid date None st = (Returned (dayData :: rest), st') ->
  sleepQualityScore dayData = None ->
  getSleepScore fuel uid date st
  = (Returned {| total := score dayData; hrv := None; breathing := None;
                 tossAndTurns := tnt dayData |}, st')
  /\ client_getHrv fuel uid date st = (Returned None, st')
  /\ getHrv fuel uid date st
     = (Returned {| hrv_date := date;
                    hrvData := {| average := None; hrv_min := None;
                                  hrv_max := None |} |}, st').
Proof.
  intros H Hq.
  unfold getSleepScore, client_getHrv, getHrv, rethrow, try_catch, bind,
    day_hrv.
  rewrite H, Hq. repeat split; reflexivity.
Qed.

(** *** Sleep stages, continued *)

Lemma stage_fold_keys (P : string -> Prop) segs :
  (forall name, name ≠ "" -> toLowerCase name ≠ "__proto__" ->
     P (toLowerCase name)) ->
  forall m,
    (forall k, is_Some (m !! k) -> P k) ->
    forall k, is_Some (fold_left stage_step segs m !! k) -> P k.
Proof.
  intros HP. induction segs as [| a segs IH]; intros m Hm k Hk; simpl in Hk;
    [apply Hm, Hk |].
  apply (IH (stage_step m a)); [| exact Hk].
  intros k' Hk'. destruct (usable a) eqn:Ua.
  - destruct (stage_step_usable m a Ua) as (name & d & _ & _ & Hn & _ & E).
    rewrite E, lookup_assign in Hk'.
    destruct (decide _) as [[<- Hp] | _]; [apply HP; assumption | apply Hm, Hk'].
  - rewrite (stage_step_unusable m a Ua) in Hk'. apply Hm, Hk'.
Qed.

(** X23. Every entry of a stage map comes from a segment with a non-empty
    name and a non-zero duration: its key is that name as the platform's
    [toLowerCase] returns it, its value is that duration; and [__proto__] is
    never a key. *)
Theorem stage_keys_from_truthy_segments (segs : list Segment) (k : string) (v : Q) :
  stage_loop segs !! k = Some v ->
  k ≠ "__proto__"
  /\ exists seg name,
       seg ∈ segs /\ stage seg = Some name /\ name ≠ ""
       /\ k = toLowerCase name
       /\ duration seg = Some v /\ ~ (v == 0)%Q.
Proof.
  intros Hk. split.
  - apply (stage_fold_keys (fun k => k ≠ "__proto__") segs) with (m := ∅) (k := k).
    + intros name _ Hp. exact Hp.
    + intros k' [x Hx]. rewrite lookup_empty in Hx. discriminate.
    + exists v. exact Hk.
  - unfold stage_loop in Hk.
    destruct (stage_fold_sound _ _ _ _ Hk)
      as [He | (seg & name & Hin & Hu & Hs & Hn & Hd)].
    + rewrite lookup_empty in He. discriminate.
    + exists seg, name.
      destruct (stage_step_usable ∅ seg Hu)
        as (name' & d' & Hs' & Hd' & Hne & Hz & _).
      rewrite Hs in Hs'. injection Hs' as <-.
      rewrite Hd in Hd'. injection Hd' as <-.
      repeat split; auto.
Qed.

Lemma stage_fold_size segs : forall m,
  size (fold_left stage_step segs m)
  <= size m + length (filter (fun seg => usable seg) segs).
Proof.
  induction segs as [| a segs IH]; intros m; simpl; [lia |].
  etransitivity; [apply IH |].
  destruct (usable a) eqn:Ua.
  - rewrite filter_cons_True by (rewrite Ua; exact I). simpl.
    destruct (stage_step_usable m a Ua) as (name & d & _ & _ & _ & _ & E).
    rewrite E. unfold assign.
    destruct (String.eqb (toLowerCase name) "__proto__"); [lia |].
    rewrite map_size_insert. destruct (m !! toLowerCase name); simpl; lia.
  - rewrite filter_cons_False by (rewrite Ua; exact id).
    rewrite (stage_step_unusable m a Ua). lia.
Qed.

(** X24. A stage map has at most one entry per segment with a truthy name
    and a truthy duration, hence at most as many entries as the day record
    has segments: segments are never split, and segments of one name share
    an entry. *)
Theorem stage_map_size (segs : list Segment) :
  size (stage_loop segs) <= length (filter (fun seg => usable seg) segs)
  /\ size (stage_loop segs) <= length segs.
Proof.
  assert (H : size (stage_loop segs)
              <= length (filter (fun seg => usable seg) segs)).
  { unfold stage_loop. etransitivity; [apply stage_fold_size |].
    rewrite map_size_empty. lia. }
  split; [exact H |].
  etransitivity; [exact H | apply length_filter].
Qed.

(** X26. A first day record without [stages], or with no segment in it, is
    not an error for [getSleepStages]: the result is the empty map. *)
Theorem getSleepStages_without_segments
    fuel uid date (st st' : State World) dayData rest :
  getSleepData fuel uid date None st = (Returned (dayData :: rest), st') ->
  stages dayData = None \/ stages dayData = Some [] ->
  getSleepStages fuel uid date st = (Returned ∅, st').
Proof.
  intros H Hs. rewrite (getSleepStages_returned _ _ _ _ _ _ _ H).
  destruct Hs as [-> | ->]; reflexivity.
Qed.

End Client.

(** ** The client against concrete worlds *)

(** *** A 401 on the retry *)

(** In a world that answers every request with a 401 and grants every login,
    a request never settles: every step of the budget goes into one more
    login and one more attempt. *)
Lemma persistent_401_never_settles fuel req : forall (st : State unit) tok,
  token (client st) = Some tok -> tok ≠ "" ->
  let result := request demo_config granting_token_endpoint rejecting_vendor
                  fuel req st in
  fst result = Pending
  /\ exists evs,
       log (snd result) = log st ++ evs
       /\ length (filter is_CallAuthenticate evs) = fuel
       /\ length (filter is_NetResource evs) = fuel.
Proof.
  induction fuel as [| fuel IH]; intros st tok Ht Hne.
  - simpl. split; [reflexivity |]. exists []. rewrite app_nil_r. auto.
  - cbv zeta.
    erewrite (request_reenters demo_config granting_token_endpoint
                rejecting_vendor fuel req st st tok no_data (world st) 200%Z _
                "tok" (world st));
      [ | apply request_interceptor_held; assumption
        | reflexivity | split; discriminate | reflexivity | reflexivity
        | reflexivity | discriminate ].
    match goal with |- context [request _ _ _ fuel req ?s] => set (st2 := s) end.
    destruct (IH st2 "tok" eq_refl ltac:(discriminate)) as (Hp & evs & E & Ha & Hr).
    split; [exact Hp |].
    eexists. split.
    + rewrite E. unfold st2, after. simpl. rewrite <- app_assoc. reflexivity.
    + rewrite !filter_app, !length_app, Ha, Hr. split; reflexivity.
Qed.

(** C1, on the code.  The vendor answers 401 to the original attempt and 401
    to the retry, and the login is granted each time.  The client does not
    stop at the second 401: it logs in a second time and sends the request a
    third time, and the caller gets the answer to that third attempt, not an
    error. *)
Theorem second_401_is_retried_again :
  let st := holding {| auth_replies := [grant "t1"; grant "t2"];
                       resource_replies := [unauthorized; unauthorized;
                                            ok no_data] |} in
  let result := request demo_config scripted_token_endpoint scripted_vendor
                  3 me st in
  fst result = Returned {| status := 200; data := no_data |}
  /\ log (snd result)
     = [ NetResource me (Some "t0");
         TokenWrite None; CallAuthenticate;
         NetLogin (login_payload demo_config); TokenWrite (Some "t1");
         NetResource me (Some "t1");
         TokenWrite None; CallAuthenticate;
         NetLogin (login_payload demo_config); TokenWrite (Some "t2");
         NetResource me (Some "t2") ]
  /\ length (filter is_CallAuthenticate (log (snd result))) = 2%nat
  /\ length (filter is_NetResource (log (snd result))) = 3%nat.
Proof.
  vm_compute. repeat split; reflexivity.
Qed.

(** *** One 401, then success *)

(** The held token has expired: the first attempt is rejected, the login is
    granted, the retry succeeds. *)
Lemma retry_once_then_success_witness :
  let st := holding {| auth_replies := [grant "t1"];
                       resource_replies := [unauthorized; ok no_data] |} in
  exists st',
    request demo_config scripted_token_endpoint scripted_vendor 2 me st
    = (Returned {| status := 200; data := no_data |}, st')
    /\ token (client st') = Some "t1"
    /\ length (filter is_CallAuthenticate (log st')) = 1%nat.
Proof.
  intros st.
  destruct (retry_once_then_success demo_config scripted_token_endpoint
              scripted_vendor 0 me st st "t0" no_data
              {| auth_replies := [grant "t1"];
                 resource_replies := [ok no_data] |}
              200%Z {| access_token := Some "t1"; auth_message := None |} "t1"
              {| auth_replies := []; resource_replies := [ok no_data] |}
              {| status := 200; data := no_data |}
              {| auth_replies := []; resource_replies := [] |})
    as (st' & Hrun & Htok & _ & Hev & _ & Hauth & _).
  - reflexivity.
  - reflexivity.
  - split; discriminate.
  - reflexivity.
  - reflexivity.
  - reflexivity.
  - discriminate.
  - reflexivity.
  - reflexivity.
  - exists st'. split; [exact Hrun |]. split; [exact Htok |]. exact Hauth.
Defined.

(** *** No credentials *)

(** Nothing is configured: a first resource request fails on the missing
    credentials and the network has not been used. *)
Lemma missing_credentials_fail_before_network_witness :
  let st := fresh {| auth_replies := [grant "t1"];
                     resource_replies := [ok no_data] |} in
  request (load_config ∅) scripted_token_endpoint scripted_vendor 1 me st
  = (Thrown ConfigurationError,
     {| client := new_client; world := world st; log := [CallAuthenticate] |}).
Proof.
  intros st.
  destruct (missing_credentials_fail_before_network (load_config ∅)
              scripted_token_endpoint scripted_vendor 0 me st)
    as (_ & Hreq & _).
  - left. reflexivity.
  - exact (Hreq eq_refl).
Defined.

(** *** No default user *)

(** The login is granted, and [getUsers] still says 'Not authenticated'. *)
Lemma getUsers_empty_userId_not_authenticated_witness :
  let st := fresh {| auth_replies := [grant "t1"];
                     resource_replies := [ok no_data] |} in
  fst (getUsers no_user_config scripted_token_endpoint scripted_vendor 1 st)
  = Thrown NotAuthenticated.
Proof.
  intros st.
  destruct (getUsers_empty_userId_not_authenticated no_user_config
              scripted_token_endpoint scripted_vendor 1 st
              {| client := {| token := Some "t1"; userId := Some "" |};
                 world := {| auth_replies := [];
                             resource_replies := [ok no_data] |};
                 log := [CallAuthenticate;
                         NetLogin (login_payload no_user_config);
                         TokenWrite (Some "t1")] |})
    as (Hrun & _).
  - reflexivity.
  - left. reflexivity.
  - reflexivity.
  - rewrite Hrun. reflexivity.
Defined.

(** *** Levels in and out of range *)

Lemma setTemperature_validates_then_sets_witness :
  let st := holding {| auth_replies := [];
                       resource_replies := [ok no_data; ok no_data] |} in
  setTemperature demo_config scripted_token_endpoint scripted_vendor
    1 "user1" 150%Q None st
  = (Thrown ValidationError, st)
  /\ fst (setTemperature demo_config scripted_token_endpoint scripted_vendor
            1 "user1" 50%Q (Some 3600%Q) st)
     = Returned temperature_updated
  /\ fst (setTemperature demo_config scripted_token_endpoint scripted_vendor
            1 "user1" (-100)%Q None st)
     = Returned temperature_updated.
Proof.
  intros st. split; [| split].
  - apply (setTemperature_validates_then_sets demo_config
             scripted_token_endpoint scripted_vendor 1 "user1" 150%Q None st).
    right. reflexivity.
  - destruct (setTemperature_validates_then_sets demo_config
                scripted_token_endpoint scripted_vendor 1 "user1" 50%Q
                (Some 3600%Q) st) as [_ Hin].
    destruct Hin as (_ & Hret & _); [split; discriminate |].
    edestruct Hret as [_ Hpos]; [reflexivity |].
    erewrite Hpos; [reflexivity | reflexivity | reflexivity].
  - destruct (setTemperature_validates_then_sets demo_config
                scripted_token_endpoint scripted_vendor 1 "user1" (-100)%Q
                None st) as [_ Hin].
    destruct Hin as (_ & Hret & _); [split; discriminate |].
    edestruct Hret as [Hzero _]; [reflexivity |].
    rewrite Hzero; [reflexivity | discriminate].
Defined.

(** *** The day after, in the date-only fragment *)

Example iso_day_after :
  map (fun s => t ← IsoDate.getTime s;
                before_T <$> IsoDate.toISOString (t + day_ms))
    [ "2024-02-28"; "2024-02-29"; "2023-02-28"; "2023-12-31";
      "2000-02-28"; "1900-02-28"; "1970-01-01"; "tomorrow" ]
  = [ Some "2024-02-29"; Some "2024-03-01"; Some "2023-03-01";
      Some "2024-01-01"; Some "2000-02-29"; Some "1900-03-01";
      Some "1970-01-02"; None ].
Proof. vm_compute. reflexivity. Qed.

(** *** Sleep data of a day *)

(** The query for 2024-02-28 runs up to 2024-02-29, and the day records come
    back as they are. *)
Lemma getSleepData_without_endDate_witness :
  let st := holding {| auth_replies := [];
                       resource_replies :=
                         [ok (trends (Some [day_without_stages]))] |} in
  let result := getSleepData demo_config scripted_token_endpoint scripted_vendor
                  IsoDate.getTime IsoDate.toISOString
                  1 "user1" "2024-02-28" None st in
  fst result = Returned [day_without_stages]
  /\ log (snd result)
     = [ NetResource
           {| method := GET; url := "/users/user1/trends";
              params := [ ("tz", "America/Los_Angeles");
                          ("from", "2024-02-28"); ("to", "2024-02-29");
                          ("include-main", "false");
                          ("include-all-sessions", "true");
                          ("model-version", "v2") ];
              body := NoBody |}
           (Some "t0") ].
Proof.
  intros st result.
  destruct (getSleepData_without_endDate demo_config scripted_token_endpoint
              scripted_vendor IsoDate.getTime IsoDate.toISOString
              1 "user1" "2024-02-28" 1709078400000%Z
              "2024-02-29T00:00:00.000Z" st)
    as (_ & _ & _ & Hret).
  - reflexivity.
  - reflexivity.
  - edestruct Hret as (r & Hrun & Hdays & _); [reflexivity |].
    unfold result. rewrite Hrun. simpl.
    rewrite (Hdays [day_without_stages] eq_refl). split; reflexivity.
Defined.

(** No record for the day: the list is empty, the helpers say not found. *)
Lemma no_day_records_not_found_witness :
  let st := holding {| auth_replies := [];
                       resource_replies := [ok (trends (Some []))] |} in
  fst (getSleepData demo_config scripted_token_endpoint scripted_vendor
         IsoDate.getTime IsoDate.toISOString 1 "user1" "2024-03-08" None st)
  = Returned []
  /\ fst (getSleepScore demo_config scripted_token_endpoint scripted_vendor
            IsoDate.getTime IsoDate.toISOString 1 "user1" "2024-03-08" st)
     = Thrown (Error "No sleep data found for date 2024-03-08").
Proof.
  intros st.
  edestruct (no_day_records_not_found demo_config scripted_token_endpoint
               scripted_vendor IsoDate.getTime IsoDate.toISOString AsciiCase.toLowerCase
               1 "user1" "2024-03-08" 1709856000000%Z
               "2024-03-09T00:00:00.000Z" st)
    as (Hdata & Hscore & _).
  - reflexivity.
  - reflexivity.
  - reflexivity.
  - right. reflexivity.
  - rewrite Hdata, Hscore. split; reflexivity.
Defined.

(** *** A cooling bed *)

Lemma getTemperature_heating_cooling_witness :
  let st := holding {| auth_replies := [];
                       resource_replies := [ok (temperature 10 (-20))] |} in
  fst (getTemperature demo_config scripted_token_endpoint scripted_vendor
         1 "user1" st)
  = Returned {| current := Some 10%Q; target := Some (-20)%Q;
                heating := false; cooling := true |}.
Proof.
  intros st.
  edestruct (getTemperature_heating_cooling demo_config scripted_token_endpoint
               scripted_vendor 1 "user1" st)
    as (r & Hrun & Hcur & Htgt & Hsign).
  - reflexivity.
  - reflexivity.
  - destruct (Hsign (-20)%Q eq_refl) as (_ & Hneg & _).
    destruct Hneg as [Hh Hc]; [reflexivity |].
    rewrite Hrun. simpl. destruct r as [c t h k]. simpl in *.
    rewrite Hcur, Htgt, Hh, Hc. reflexivity.
Defined.

(** *** Stage segments *)

Lemma getSleepStages_maps_segments_witness :
  let st := holding {| auth_replies := [];
                       resource_replies :=
                         [ok (trends (Some [day_with_stages
                                              [segment "DEEP" 120;
                                               segment "LIGHT" 240]]))] |} in
  fst (getSleepStages demo_config scripted_token_endpoint scripted_vendor
         IsoDate.getTime IsoDate.toISOString AsciiCase.toLowerCase 1 "user1" "2024-03-08" st)
  = Returned {[ "deep" := 120%Q; "light" := 240%Q ]}.
Proof.
  intros st.
  edestruct (getSleepStages_maps_segments demo_config scripted_token_endpoint
               scripted_vendor IsoDate.getTime IsoDate.toISOString AsciiCase.toLowerCase
               1 "user1" "2024-03-08" st)
    as (m & Hrun & _ & _ & _ & Hexample).
  - reflexivity.
  - rewrite Hrun. simpl. rewrite Hexample; reflexivity.
Defined.

(** A REM segment of duration 0 between two others: no [rem] key. *)
Lemma getSleepStages_skips_falsy_segments_witness :
  let st := holding {| auth_replies := [];
                       resource_replies :=
                         [ok (trends (Some [day_with_stages
                                              [segment "DEEP" 120;
                                               segment "REM" 0;
                                               segment "LIGHT" 240]]))] |} in
  exists stageMap,
    fst (getSleepStages demo_config scripted_token_endpoint scripted_vendor
           IsoDate.getTime IsoDate.toISOString AsciiCase.toLowerCase 1 "user1" "2024-03-08" st)
    = Returned stageMap
    /\ stageMap = {[ "deep" := 120%Q; "light" := 240%Q ]}
    /\ stageMap !! "rem" = None.
Proof.
  intros st.
  edestruct (getSleepStages_skips_falsy_segments demo_config
               scripted_token_endpoint scripted_vendor
               IsoDate.getTime IsoDate.toISOString AsciiCase.toLowerCase
               1 "user1" "2024-03-08" st)
    with (before := [segment "DEEP" 120]) (seg := segment "REM" 0)
         (after := [segment "LIGHT" 240])
    as (m & Hrun & Hm & _ & Habsent).
  - reflexivity.
  - reflexivity.
  - right. right. right. exists 0%Q. split; reflexivity.
  - exists m. rewrite Hrun. split; [reflexivity |]. split.
    + rewrite Hm. reflexivity.
    + apply (Habsent "REM"); [reflexivity |].
      intros seg' name' Hin Hs.
      apply elem_of_cons in Hin as [-> | Hin].
      * injection Hs as <-. discriminate.
      * apply list_elem_of_singleton in Hin as ->.
        injection Hs as <-. discriminate.
Defined.

(** ** More runs against concrete worlds *)

(** *** Logins that fail *)

(** Wrong password: the endpoint answers 401 with a message. *)
Lemma authenticate_fails_cleanly_witness :
  let st := holding {| auth_replies := [refuse 401 (Some "bad credentials")];
                       resource_replies := [] |} in
  exists st',
    authenticate demo_config scripted_token_endpoint st
    = (Thrown (Error "Failed to authenticate with Eight Sleep: bad credentials"),
       st')
    /\ token (client st') = Some "t0".
Proof.
  intros st. eexists. split; [reflexivity |].
  eapply (authenticate_fails_cleanly demo_config scripted_token_endpoint st).
  reflexivity.
Defined.

Lemma authenticate_rejected_login_witness :
  let st := fresh {| auth_replies := [refuse 403 None]; resource_replies := [] |} in
  fst (authenticate demo_config scripted_token_endpoint st)
  = Thrown (Error "Failed to authenticate with Eight Sleep: Request failed with status code 403").
Proof.
  intros st.
  destruct (authenticate_rejected_login demo_config scripted_token_endpoint st
              (refuse 403 None)
              {| auth_replies := []; resource_replies := [] |})
    as [Hstatus _].
  - split; discriminate.
  - reflexivity.
  - rewrite (Hstatus 403%Z _ eq_refl eq_refl). reflexivity.
Defined.

Lemma authenticate_without_token_witness :
  let st := fresh {| auth_replies := [refuse 200 None]; resource_replies := [] |} in
  authenticate demo_config scripted_token_endpoint st
  = (Thrown (Error "Failed to authenticate with Eight Sleep"),
     after st new_client {| auth_replies := []; resource_replies := [] |}
       [CallAuthenticate; NetLogin (login_payload demo_config)]).
Proof.
  intros st.
  eapply (authenticate_without_token demo_config scripted_token_endpoint st).
  - split; discriminate.
  - reflexivity.
  - reflexivity.
  - left. reflexivity.
Defined.

(** *** Requests that succeed or fail *)

Lemma one_login_serves_later_requests_witness :
  let st := fresh {| auth_replies := [grant "t1"];
                     resource_replies := [ok no_data; ok no_data] |} in
  (run request demo_config scripted_token_endpoint scripted_vendor 1 me;
   request demo_config scripted_token_endpoint scripted_vendor 1 me) st
  = (Returned {| status := 200; data := no_data |},
     after st {| token := Some "t1"; userId := Some "user1" |}
       {| auth_replies := []; resource_replies := [] |}
       [CallAuthenticate; NetLogin (login_payload demo_config);
        TokenWrite (Some "t1");
        NetResource me (Some "t1"); NetResource me (Some "t1")]).
Proof.
  intros st.
  eapply (one_login_serves_later_requests demo_config scripted_token_endpoint
            scripted_vendor 0 me me st).
  - reflexivity.
  - split; discriminate.
  - reflexivity.
  - reflexivity.
  - reflexivity.
  - discriminate.
  - reflexivity.
  - reflexivity.
  - reflexivity.
  - reflexivity.
Defined.

Lemma request_other_status_propagates_witness :
  let st := holding {| auth_replies := [grant "t1"];
                       resource_replies := [failing 500 (Some "boom")] |} in
  request demo_config scripted_token_endpoint scripted_vendor 1 me st
  = (Thrown (AxiosError (status_message 500)
               (Some {| err_status := 500; err_data_message := Some "boom" |})),
     after st (client st)
       {| auth_replies := [grant "t1"]; resource_replies := [] |}
       [NetResource me (Some "t0")]).
Proof.
  intros st.
  eapply (request_other_status_propagates demo_config scripted_token_endpoint
            scripted_vendor 0 me st "t0" 500%Z (failure_data (Some "boom"))).
  - reflexivity.
  - discriminate.
  - reflexivity.
  - right. lia.
  - lia.
Defined.

Lemma request_transport_failure_propagates_witness :
  let st := holding {| auth_replies := []; resource_replies := [] |} in
  request demo_config scripted_token_endpoint scripted_vendor 1 me st
  = (Thrown (AxiosError "Network Error" None),
     after st (client st) {| auth_replies := []; resource_replies := [] |}
       [NetResource me (Some "t0")]).
Proof.
  intros st.
  eapply (request_transport_failure_propagates demo_config
            scripted_token_endpoint scripted_vendor 0 me st "t0").
  - reflexivity.
  - discriminate.
  - reflexivity.
Defined.

Lemma failed_relogin_leaves_client_without_token_witness :
  let st := holding {| auth_replies := [refuse 401 None];
                       resource_replies := [unauthorized; ok no_data] |} in
  exists st2,
    request demo_config scripted_token_endpoint scripted_vendor 2 me st
    = (Thrown (Error "Failed to authenticate with Eight Sleep: Request failed with status code 401"),
       st2)
    /\ token (client st2) = None
    /\ filter is_NetResource (events_since st st2) = [NetResource me (Some "t0")].
Proof.
  intros st.
  edestruct (failed_relogin_leaves_client_without_token demo_config
               scripted_token_endpoint scripted_vendor 1 me st)
    as (Hrun & _ & Htok & Hsent).
  - reflexivity.
  - discriminate.
  - reflexivity.
  - reflexivity.
  - eexists. split; [exact Hrun |]. split; [exact Htok | exact Hsent].
Defined.

Lemma userId_only_from_config_witness :
  let st := fresh {| auth_replies := [grant "t1"];
                     resource_replies := [ok no_data] |} in
  userId (client (snd (getUsers demo_config scripted_token_endpoint
                         scripted_vendor 1 st)))
  = Some "user1".
Proof.
  intros st.
  destruct (userId_only_from_config demo_config scripted_token_endpoint
              scripted_vendor 1 me st) as (_ & _ & [H | H]).
  - left. reflexivity.
  - discriminate H.
  - exact H.
Defined.

Lemma request_pending_while_unauthorized_witness :
  fst (request demo_config granting_token_endpoint rejecting_vendor 7 me
         {| client := {| token := Some "t0"; userId := Some "user1" |};
            world := tt; log := [] |})
  = Pending.
Proof.
  eapply (request_pending_while_unauthorized demo_config
            granting_token_endpoint rejecting_vendor me).
  - split; discriminate.
  - intros w bearer. exists no_data, w. reflexivity.
  - intros w. eexists _, _, "tok", w. split; [reflexivity |].
    split; [reflexivity |]. split; [reflexivity | discriminate].
  - reflexivity.
  - discriminate.
Defined.

(** *** Errors of the facade *)

(** An alarm that is not there: the 404 comes out as it is. *)
Lemma delete_methods_throw_AxiosError_witness :
  let st := holding {| auth_replies := [];
                       resource_replies := [failing 404 (Some "no such alarm")] |} in
  deleteAlarm demo_config scripted_token_endpoint scripted_vendor
    1 "user1" "a1" st
  = (Thrown (AxiosError (status_message 404)
               (Some {| err_status := 404;
                        err_data_message := Some "no such alarm" |})),
     after st (client st) {| auth_replies := []; resource_replies := [] |}
       [NetResource (delete_alarm_request "user1" "a1") (Some "t0")]).
Proof.
  intros st.
  destruct (delete_methods_throw_AxiosError demo_config scripted_token_endpoint
              scripted_vendor 0 "user1" "a1" st "t0")
    as (_ & Hrejected & _ & _).
  - reflexivity.
  - discriminate.
  - apply (Hrejected 404%Z (failure_data (Some "no such alarm"))).
    + reflexivity.
    + right. lia.
    + lia.
Defined.

(** The vendor's message wins; an empty one gives way to the status. *)
Lemma getTemperature_error_message_witness :
  fst (getTemperature demo_config scripted_token_endpoint scripted_vendor
         1 "user1"
         (holding {| auth_replies := [];
                     resource_replies := [failing 503 (Some "maintenance")] |}))
  = Thrown (Error "Failed to get temperature data: maintenance")
  /\ fst (getTemperature demo_config scripted_token_endpoint scripted_vendor
            1 "user1"
            (holding {| auth_replies := [];
                        resource_replies := [failing 503 (Some "")] |}))
     = Thrown (Error "Failed to get temperature data: Request failed with status code 503").
Proof.
  split.
  - erewrite (getTemperature_error_message demo_config scripted_token_endpoint
                scripted_vendor 0 "user1" _ "t0" 503%Z
                (failure_data (Some "maintenance")));
      [reflexivity | reflexivity | discriminate | reflexivity | right; lia | lia].
  - erewrite (getTemperature_error_message demo_config scripted_token_endpoint
                scripted_vendor 0 "user1" _ "t0" 503%Z
                (failure_data (Some "")));
      [reflexivity | reflexivity | discriminate | reflexivity | right; lia | lia].
Defined.

Lemma getTemperature_without_currentLevel_witness :
  let d := {| message := None;
              currentState := Some {| state_level := Some 10%Q |};
              currentLevel := None; days := None; payload := "" |} in
  fst (getTemperature demo_config scripted_token_endpoint scripted_vendor
         1 "user1"
         (holding {| auth_replies := []; resource_replies := [ok d] |}))
  = Returned {| current := Some 10%Q; target := None;
                heating := false; cooling := false |}.
Proof.
  intros d.
  erewrite (getTemperature_without_currentLevel demo_config
              scripted_token_endpoint scripted_vendor 1 "user1");
    [ | reflexivity | reflexivity | reflexivity ].
  reflexivity.
Defined.

Lemma getTemperature_without_currentState_witness :
  fst (getTemperature demo_config scripted_token_endpoint scripted_vendor
         1 "user1"
         (holding {| auth_replies := []; resource_replies := [ok no_data] |}))
  = Thrown (TypeError "Cannot read properties of undefined (reading 'level')").
Proof.
  erewrite (getTemperature_without_currentState demo_config
              scripted_token_endpoint scripted_vendor 1 "user1");
    [ | reflexivity | reflexivity ].
  reflexivity.
Defined.

(** *** Users and temperature *)

Lemma getUsers_logs_in_once_witness :
  let st := fresh {| auth_replies := [grant "t1"];
                     resource_replies := [ok no_data] |} in
  getUsers demo_config scripted_token_endpoint scripted_vendor 1 st
  = (Returned {[ "user1" := no_data ]},
     after st {| token := Some "t1"; userId := Some "user1" |}
       {| auth_replies := []; resource_replies := [] |}
       [CallAuthenticate; NetLogin (login_payload demo_config);
        TokenWrite (Some "t1"); NetResource users_me_request (Some "t1")]).
Proof.
  intros st.
  eapply (getUsers_logs_in_once demo_config scripted_token_endpoint
            scripted_vendor 0 st 200%Z
            {| access_token := Some "t1"; auth_message := None |} "t1"
            {| auth_replies := []; resource_replies := [ok no_data] |}
            {| status := 200; data := no_data |}).
  - discriminate.
  - reflexivity.
  - split; discriminate.
  - reflexivity.
  - reflexivity.
  - reflexivity.
  - discriminate.
  - reflexivity.
  - reflexivity.
Defined.

(** The client sends a level of 150 when asked to. *)
Lemma setTempLevel_sends_any_level_witness :
  let st := holding {| auth_replies := []; resource_replies := [ok no_data] |} in
  setTempLevel demo_config scripted_token_endpoint scripted_vendor
    1 "user1" 150%Q None st
  = (Returned temperature_updated,
     after st (client st) {| auth_replies := []; resource_replies := [] |}
       [NetResource (level_request "user1" 150) (Some "t0")]).
Proof.
  intros st.
  eapply (setTempLevel_sends_any_level demo_config scripted_token_endpoint
            scripted_vendor 0 "user1" 150%Q st "t0"
            {| status := 200; data := no_data |}).
  - reflexivity.
  - discriminate.
  - reflexivity.
  - reflexivity.
Defined.

Lemma setTemperature_fails_after_level_is_set_witness :
  let st := holding {| auth_replies := [];
                       resource_replies := [ok no_data;
                                            failing 400 (Some "bad duration")] |} in
  setTemperature demo_config scripted_token_endpoint scripted_vendor
    1 "user1" 20%Q (Some 600%Q) st
  = (Thrown (Error "Failed to set temperature: bad duration"),
     after st (client st) {| auth_replies := []; resource_replies := [] |}
       [NetResource (level_request "user1" 20) (Some "t0");
        NetResource (duration_request "user1" 20 600) (Some "t0")]).
Proof.
  intros st.
  eapply (setTemperature_fails_after_level_is_set demo_config
            scripted_token_endpoint scripted_vendor 0 "user1" 20%Q 600%Q st
            "t0" {| status := 200; data := no_data |}
            {| auth_replies := [];
               resource_replies := [failing 400 (Some "bad duration")] |}
            400%Z (failure_data (Some "bad duration"))).
  - discriminate.
  - discriminate.
  - reflexivity.
  - reflexivity.
  - discriminate.
  - reflexivity.
  - reflexivity.
  - reflexivity.
  - right. lia.
  - lia.
Defined.

(** *** Sleep data *)

(** A start date no [Date] reads, with an end date: the query goes out. *)
Lemma getSleepData_with_endDate_witness :
  let st := holding {| auth_replies := [];
                       resource_replies :=
                         [ok (trends (Some [day_without_stages]))] |} in
  getSleepData demo_config scripted_token_endpoint scripted_vendor
    IsoDate.getTime IsoDate.toISOString 1 "user1" "last monday"
    (Some "2024-03-09") st
  = (Returned [day_without_stages],
     after st (client st) {| auth_replies := []; resource_replies := [] |}
       [NetResource (trends_request "user1" "last monday" "2024-03-09")
          (Some "t0")]).
Proof.
  intros st.
  destruct (getSleepData_with_endDate demo_config scripted_token_endpoint
              scripted_vendor IsoDate.getTime IsoDate.toISOString
              1 "user1" "last monday" "2024-03-09" st) as [_ Hret].
  - discriminate.
  - erewrite Hret; [| reflexivity]. reflexivity.
Defined.

(** The same start date without an end date: nothing goes out. *)
Lemma getSleepData_unreadable_startDate_witness :
  let st := holding {| auth_replies := [];
                       resource_replies :=
                         [ok (trends (Some [day_without_stages]))] |} in
  getSleepData demo_config scripted_token_endpoint scripted_vendor
    IsoDate.getTime IsoDate.toISOString 1 "user1" "last monday" None st
  = (Thrown (RangeError "Invalid time value"), st).
Proof.
  intros st.
  apply (getSleepData_unreadable_startDate demo_config scripted_token_endpoint
           scripted_vendor IsoDate.getTime IsoDate.toISOString).
  reflexivity.
Defined.

(** The vendor is down: the score fails under the name of the sleep data. *)
Lemma sleep_helpers_pass_errors_on_witness :
  let st := holding {| auth_replies := [];
                       resource_replies := [failing 500 None] |} in
  fst (getSleepScore demo_config scripted_token_endpoint scripted_vendor
         IsoDate.getTime IsoDate.toISOString 1 "user1" "2024-03-08" st)
  = Thrown (Error "Failed to get sleep data: Request failed with status code 500").
Proof.
  intros st.
  edestruct (sleep_helpers_pass_errors_on demo_config scripted_token_endpoint
               scripted_vendor IsoDate.getTime IsoDate.toISOString AsciiCase.toLowerCase
               1 "user1" "2024-03-08" st) as (Hscore & _).
  - reflexivity.
  - rewrite Hscore. reflexivity.
Defined.

Lemma day_without_quality_scores_witness :
  let st := holding {| auth_replies := [];
                       resource_replies :=
                         [ok (trends (Some [day_without_stages]))] |} in
  fst (getSleepScore demo_config scripted_token_endpoint scripted_vendor
         IsoDate.getTime IsoDate.toISOString 1 "user1" "2024-03-08" st)
  = Returned {| total := Some 80%Q; hrv := None; breathing := None;
                tossAndTurns := Some 12%Q |}.
Proof.
  intros st.
  edestruct (day_without_quality_scores demo_config scripted_token_endpoint
               scripted_vendor IsoDate.getTime IsoDate.toISOString
               1 "user1" "2024-03-08" st) as (Hscore & _).
  - reflexivity.
  - reflexivity.
  - rewrite Hscore. reflexivity.
Defined.

Lemma getSleepStages_without_segments_witness :
  let st := holding {| auth_replies := [];
                       resource_replies :=
                         [ok (trends (Some [day_without_stages]))] |} in
  fst (getSleepStages demo_config scripted_token_endpoint scripted_vendor
         IsoDate.getTime IsoDate.toISOString AsciiCase.toLowerCase 1 "user1" "2024-03-08" st)
  = Returned ∅.
Proof.
  intros st.
  erewrite (getSleepStages_without_segments demo_config
              scripted_token_endpoint scripted_vendor
              IsoDate.getTime IsoDate.toISOString AsciiCase.toLowerCase 1 "user1" "2024-03-08" st);
    [ | reflexivity | left; reflexivity ].
  reflexivity.
Defined.

(** [Deep] then [DEEP]: one entry, from the later segment. *)
Lemma stage_keys_from_truthy_segments_witness :
  let segs := [segment "Deep" 60; segment "DEEP" 90] in
  exists seg,
    seg ∈ segs /\ stage seg = Some "DEEP" /\ duration seg = Some 90%Q.
Proof.
  intros segs.
  destruct (stage_keys_from_truthy_segments AsciiCase.toLowerCase segs
              "deep" 90%Q)
    as (_ & seg & name & Hin & Hs & _ & Hk & Hd & _).
  - reflexivity.
  - exists seg. split; [exact Hin |]. split; [| exact Hd].
    apply elem_of_cons in Hin as [-> | Hin].
    + simpl in Hd. discriminate Hd.
    + apply list_elem_of_singleton in Hin as ->. reflexivity.
Defined.

(** *** Credentials from the environment *)

(** X29. The client has credentials exactly when both [EIGHT_SLEEP_EMAIL] and
    [EIGHT_SLEEP_PASSWORD] are set to something other than the empty string:
    a variable set to the empty string counts as one that is not set. *)
Theorem load_config_has_credentials (env : gmap string string) :
  has_credentials (load_config env)
  <-> (exists e, env !! "EIGHT_SLEEP_EMAIL" = Some e /\ e ≠ "")
      /\ (exists p, env !! "EIGHT_SLEEP_PASSWORD" = Some p /\ p ≠ "").
Proof.
  unfold has_credentials, load_config, env_or_empty, or_string. simpl.
  split.
  - intros [He Hp]. split.
    + destruct (env !! "EIGHT_SLEEP_EMAIL") as [e |]; [| contradiction].
      exists e. split; [reflexivity |]. intros ->. apply He. reflexivity.
    + destruct (env !! "EIGHT_SLEEP_PASSWORD") as [p |]; [| contradiction].
      exists p. split; [reflexivity |]. intros ->. apply Hp. reflexivity.
  - intros [(e & -> & He) (p & -> & Hp)].
    rewrite (truthy_string_true _ He), (truthy_string_true _ Hp).
    split; assumption.
Qed.
